(** * The ten_env logging facade (ten_runtime/ten_env/internal/log.c)

    A shallow embedding of the five public entry points of log.c and of
    the two static helpers they funnel into, followed by the properties
    of the facade.

    The C functions are void and act only through their effects, so each
    one is embedded as a computation in a small monad that records the
    effects in calling order (reads of the handle, the write to standard
    error, the submission to the global sink) and that ends in one of
    three ways: a normal return, the process abort of a failed
    TEN_ASSERT, or undefined behaviour of the C program (an invalid
    character pointer handed to strlen or to a %s directive). *)

From Stdlib Require Import String Ascii List ZArith Lia Bool DecimalString.
Import ListNotations.
Local Open Scope string_scope.

(* ===================================================================== *)
(** ** C character pointers *)
(* ===================================================================== *)

Module CStr.

(** A [const char *]: the null pointer, or a pointer into an object of
    which [mem] are the bytes readable from the pointer onwards. *)
Inductive cptr : Type :=
| NULL
| Ptr (mem : string).

Definition NUL : ascii := Ascii.zero.

(** The bytes before the first NUL; [None] when the object ends before a
    terminator is met (the scan would leave the object). *)
Fixpoint scan (mem : string) : option string :=
  match mem with
  | EmptyString => None
  | String c rest =>
      if Ascii.eqb c NUL then Some EmptyString
      else option_map (String c) (scan rest)
  end.

(** The text a pointer designates when it is read as a C string. *)
Definition c_str (p : cptr) : option string :=
  match p with
  | NULL => None
  | Ptr mem => scan mem
  end.

(** strlen(3): defined on pointers to NUL-terminated strings only. *)
Definition strlen (p : cptr) : option nat :=
  option_map String.length (c_str p).

(** A pointer to a string literal: the text followed by its terminator. *)
Definition literal (s : string) : cptr := Ptr (s ++ String NUL EmptyString).

(** No byte of the text is the terminator. *)
Fixpoint nul_free (s : string) : bool :=
  match s with
  | EmptyString => true
  | String c rest => negb (Ascii.eqb c NUL) && nul_free rest
  end.

End CStr.
Export CStr.

(* ===================================================================== *)
(** ** printf-style expansion *)
(* ===================================================================== *)

(** Length modifiers of a conversion specification. *)
Inductive length_modifier : Type :=
| LenNone | Len_hh | Len_h | Len_l | Len_ll | Len_j | Len_z | Len_t | Len_L.

(** A conversion specification %[flags][width][.precision][length]conv. *)
Record conv_spec : Type := {
  flag_minus : bool;
  flag_plus : bool;
  flag_space : bool;
  flag_hash : bool;
  flag_zero : bool;
  width : option nat;
  precision : option nat;
  len_mod : length_modifier;
  conversion : ascii
}.

(** One argument of a variable argument list. An integer argument is
    given by its value, a string argument by the text of the
    NUL-terminated string it points to. An argument whose rendering is
    not computed here (a floating-point number, a pointer, a wide
    character or string) is given by the text the C library produces for
    it under each conversion specification. *)
Inductive fmt_arg : Type :=
| ArgInt (z : Z)
| ArgStr (s : string)
| ArgChar (c : ascii)
| ArgOpaque (text : conv_spec -> string).

Definition int_min : Z := - 2 ^ 31.
Definition int_max : Z := 2 ^ 31 - 1.

Definition decimal (z : Z) : string := NilZero.string_of_int (Z.to_int z).

Definition empty_spec : conv_spec :=
  {| flag_minus := false; flag_plus := false; flag_space := false;
     flag_hash := false; flag_zero := false; width := None;
     precision := None; len_mod := LenNone; conversion := "%" |}.

Definition set_width (w : option nat) (sp : conv_spec) : conv_spec :=
  {| flag_minus := flag_minus sp; flag_plus := flag_plus sp;
     flag_space := flag_space sp; flag_hash := flag_hash sp;
     flag_zero := flag_zero sp; width := w; precision := precision sp;
     len_mod := len_mod sp; conversion := conversion sp |}.

Definition set_precision (p : option nat) (sp : conv_spec) : conv_spec :=
  {| flag_minus := flag_minus sp; flag_plus := flag_plus sp;
     flag_space := flag_space sp; flag_hash := flag_hash sp;
     flag_zero := flag_zero sp; width := width sp; precision := p;
     len_mod := len_mod sp; conversion := conversion sp |}.

Definition set_len (l : length_modifier) (sp : conv_spec) : conv_spec :=
  {| flag_minus := flag_minus sp; flag_plus := flag_plus sp;
     flag_space := flag_space sp; flag_hash := flag_hash sp;
     flag_zero := flag_zero sp; width := width sp;
     precision := precision sp; len_mod := l; conversion := conversion sp |}.

Definition set_conversion (c : ascii) (sp : conv_spec) : conv_spec :=
  {| flag_minus := flag_minus sp; flag_plus := flag_plus sp;
     flag_space := flag_space sp; flag_hash := flag_hash sp;
     flag_zero := flag_zero sp; width := width sp;
     precision := precision sp; len_mod := len_mod sp; conversion := c |}.

Definition is_flag (c : ascii) : bool :=
  Ascii.eqb c "-" || Ascii.eqb c "+" || Ascii.eqb c " " ||
  Ascii.eqb c "#" || Ascii.eqb c "0".

Definition set_flag (c : ascii) (sp : conv_spec) : conv_spec :=
  {| flag_minus := flag_minus sp || Ascii.eqb c "-";
     flag_plus := flag_plus sp || Ascii.eqb c "+";
     flag_space := flag_space sp || Ascii.eqb c " ";
     flag_hash := flag_hash sp || Ascii.eqb c "#";
     flag_zero := flag_zero sp || Ascii.eqb c "0";
     width := width sp; precision := precision sp; len_mod := len_mod sp;
     conversion := conversion sp |}.

Definition is_digit (c : ascii) : bool :=
  (48 <=? nat_of_ascii c)%nat && (nat_of_ascii c <=? 57)%nat.

Definition digit_value (c : ascii) : nat := nat_of_ascii c - 48.

(** [n] copies of one character. *)
Fixpoint pad_chars (n : nat) (c : ascii) : string :=
  match n with
  | O => EmptyString
  | S n' => String c (pad_chars n' c)
  end.

(** The first [n] characters of a text. *)
Fixpoint take_chars (n : nat) (s : string) : string :=
  match n, s with
  | S n', String c rest => String c (take_chars n' rest)
  | _, _ => EmptyString
  end.

Definition digit_char (upper : bool) (d : N) : ascii :=
  if (d <? 10)%N then ascii_of_N (48 + d)
  else ascii_of_N ((if upper then 55 else 87) + d).

Fixpoint to_digits (fuel : nat) (base n : N) (upper : bool) (acc : string)
    : string :=
  match fuel with
  | O => acc
  | S fuel' =>
      let acc' := String (digit_char upper (n mod base)) acc in
      if (n / base =? 0)%N then acc'
      else to_digits fuel' base (n / base) upper acc'
  end.

(** The digits of [n] in base 8, 10 or 16, most significant first. *)
Definition digits (base n : N) (upper : bool) : string :=
  if (base =? 10)%N then decimal (Z.of_N n)
  else to_digits (S (N.size_nat n)) base n upper EmptyString.

(** The width in bits of the argument as it is passed (after the default
    promotions) and of the type it is converted to before printing, in
    the LP64 data model. *)
Definition arg_bits (l : length_modifier) : option Z :=
  match l with
  | LenNone | Len_hh | Len_h => Some 32%Z
  | Len_l | Len_ll | Len_j | Len_z | Len_t => Some 64%Z
  | Len_L => None
  end.

Definition value_bits (l : length_modifier) : Z :=
  match l with
  | Len_hh => 8
  | Len_h => 16
  | LenNone => 32
  | _ => 64
  end.

Definition wrap_unsigned (bits z : Z) : Z := (z mod 2 ^ bits)%Z.

Definition wrap_signed (bits z : Z) : Z :=
  let u := (z mod 2 ^ bits)%Z in
  if (u <? 2 ^ (bits - 1))%Z then u else (u - 2 ^ bits)%Z.

(** The digits of an integer conversion under its precision: at least
    [precision] digits, and none at all for the value 0 with precision
    0. *)
Definition integer_digits (sp : conv_spec) (base : N) (upper : bool) (n : N)
    : string :=
  let ds := digits base n upper in
  match precision sp with
  | None => ds
  | Some p =>
      if (n =? 0)%N && (p =? 0)%nat then EmptyString
      else pad_chars (p - String.length ds) "0" ++ ds
  end.

(** Padding to the field width: to the right after a - flag, with zeros
    between the lead (sign or base prefix) and the digits where the 0
    flag applies, to the left otherwise. *)
Definition justify (sp : conv_spec) (lead body : string) (zero_ok : bool)
    : string :=
  match width sp with
  | None => lead ++ body
  | Some w =>
      let gap := w - (String.length lead + String.length body) in
      if flag_minus sp then lead ++ body ++ pad_chars gap " "
      else if zero_ok && flag_zero sp then lead ++ pad_chars gap "0" ++ body
      else pad_chars gap " " ++ lead ++ body
  end.

Definition no_precision (sp : conv_spec) : bool :=
  match precision sp with
  | None => true
  | Some _ => false
  end.

Definition starts_with_zero (s : string) : bool :=
  match s with
  | String c _ => Ascii.eqb c "0"
  | EmptyString => false
  end.

(** The integer argument at the head of the list, when it fits the type
    the length modifier names (read as signed or as unsigned). *)
Definition take_integer (sp : conv_spec) (ap : list fmt_arg)
    : option (Z * list fmt_arg) :=
  match ap, arg_bits (len_mod sp) with
  | ArgInt z :: ap', Some bits =>
      if ((- 2 ^ (bits - 1) <=? z) && (z <? 2 ^ bits))%Z
      then Some (z, ap') else None
  | _, _ => None
  end.

Definition take_opaque (sp : conv_spec) (ap : list fmt_arg)
    : option (string * list fmt_arg) :=
  match ap with
  | ArgOpaque text :: ap' => Some (text sp, ap')
  | _ => None
  end.

Definition convert_signed (sp : conv_spec) (ap : list fmt_arg)
    : option (string * list fmt_arg) :=
  if flag_hash sp then None else
  match take_integer sp ap with
  | Some (z, ap') =>
      let v := wrap_signed (value_bits (len_mod sp)) z in
      let sign := if (v <? 0)%Z then "-"
                  else if flag_plus sp then "+"
                  else if flag_space sp then " " else "" in
      Some (justify sp sign
              (integer_digits sp 10 false (Z.to_N (Z.abs v)))
              (no_precision sp), ap')
  | None => None
  end.

Definition convert_unsigned (sp : conv_spec) (c : ascii)
    (ap : list fmt_arg) : option (string * list fmt_arg) :=
  match take_integer sp ap with
  | Some (z, ap') =>
      let v := Z.to_N (wrap_unsigned (value_bits (len_mod sp)) z) in
      if Ascii.eqb c "u" then
        if flag_hash sp then None
        else Some (justify sp "" (integer_digits sp 10 false v)
                     (no_precision sp), ap')
      else if Ascii.eqb c "o" then
        let ds := integer_digits sp 8 false v in
        Some (justify sp ""
                (if flag_hash sp && negb (starts_with_zero ds)
                 then "0" ++ ds else ds)
                (no_precision sp), ap')
      else
        let upper := Ascii.eqb c "X" in
        let lead := if flag_hash sp && negb (v =? 0)%N
                    then (if upper then "0X" else "0x") else "" in
        Some (justify sp lead (integer_digits sp 16 upper v)
                (no_precision sp), ap')
  | None => None
  end.

Definition convert_char (sp : conv_spec) (ap : list fmt_arg)
    : option (string * list fmt_arg) :=
  if flag_hash sp || flag_zero sp || negb (no_precision sp) then None else
  match len_mod sp with
  | LenNone =>
      match ap with
      | ArgChar ch :: ap' => Some (justify sp "" (String ch "") false, ap')
      | ArgInt z :: ap' =>
          if ((int_min <=? z) && (z <=? int_max))%Z
          then Some (justify sp ""
                       (String (ascii_of_N (Z.to_N (z mod 256))) "") false,
                     ap')
          else None
      | _ => None
      end
  | Len_l => take_opaque sp ap
  | _ => None
  end.

Definition convert_string (sp : conv_spec) (ap : list fmt_arg)
    : option (string * list fmt_arg) :=
  if flag_hash sp || flag_zero sp then None else
  match len_mod sp with
  | LenNone =>
      match ap with
      | ArgStr s :: ap' =>
          Some (justify sp ""
                  (match precision sp with
                   | None => s
                   | Some p => take_chars p s
                   end) false, ap')
      | _ => None
      end
  | Len_l => take_opaque sp ap
  | _ => None
  end.

Definition is_float_conversion (c : ascii) : bool :=
  Ascii.eqb c "f" || Ascii.eqb c "F" || Ascii.eqb c "e" || Ascii.eqb c "E" ||
  Ascii.eqb c "g" || Ascii.eqb c "G" || Ascii.eqb c "a" || Ascii.eqb c "A".

Definition plain_spec (sp : conv_spec) : bool :=
  negb (flag_minus sp || flag_plus sp || flag_space sp || flag_hash sp ||
        flag_zero sp) &&
  match width sp, precision sp with
  | None, None => true
  | _, _ => false
  end.

(** The text one conversion produces, and the arguments it leaves. A %n
    conversion produces no text; the store it makes through its argument
    is outside this development. *)
Definition convert (sp0 : conv_spec) (c : ascii) (ap : list fmt_arg)
    : option (string * list fmt_arg) :=
  let sp := set_conversion c sp0 in
  if Ascii.eqb c "%" then
    match len_mod sp with
    | LenNone => if plain_spec sp then Some ("%", ap) else None
    | _ => None
    end
  else if Ascii.eqb c "d" || Ascii.eqb c "i" then convert_signed sp ap
  else if Ascii.eqb c "u" || Ascii.eqb c "o" || Ascii.eqb c "x" ||
          Ascii.eqb c "X" then convert_unsigned sp c ap
  else if Ascii.eqb c "c" then convert_char sp ap
  else if Ascii.eqb c "s" then convert_string sp ap
  else if is_float_conversion c then
    match len_mod sp with
    | LenNone | Len_l | Len_L => take_opaque sp ap
    | _ => None
    end
  else if Ascii.eqb c "p" then
    match len_mod sp with
    | LenNone => take_opaque sp ap
    | _ => None
    end
  else if Ascii.eqb c "n" then
    if plain_spec sp then
      match ap with
      | ArgOpaque _ :: ap' => Some ("", ap')
      | _ => None
      end
    else None
  else None.

(** Where the scan of a format stands: in ordinary text, or inside a
    conversion specification of which [sp] has been read so far. *)
Inductive phase : Type :=
| PhFlags | PhWidth | PhAfterWidth | PhPrecStart | PhPrec | PhAfterPrec
| PhLenH | PhLenL | PhConv.

Inductive scan_state : Type :=
| InText
| InSpec (ph : phase) (sp : conv_spec).

Definition step_result : Type := option (scan_state * string * list fmt_arg).

Definition on_conversion (sp : conv_spec) (c : ascii) (ap : list fmt_arg)
    : step_result :=
  match convert sp c ap with
  | Some (out, ap') => Some (InText, out, ap')
  | None => None
  end.

Definition on_length (sp : conv_spec) (c : ascii) (ap : list fmt_arg)
    : step_result :=
  if Ascii.eqb c "h" then Some (InSpec PhLenH (set_len Len_h sp), "", ap)
  else if Ascii.eqb c "l" then Some (InSpec PhLenL (set_len Len_l sp), "", ap)
  else if Ascii.eqb c "j" then Some (InSpec PhConv (set_len Len_j sp), "", ap)
  else if Ascii.eqb c "z" then Some (InSpec PhConv (set_len Len_z sp), "", ap)
  else if Ascii.eqb c "t" then Some (InSpec PhConv (set_len Len_t sp), "", ap)
  else if Ascii.eqb c "L" then Some (InSpec PhConv (set_len Len_L sp), "", ap)
  else on_conversion sp c ap.

Definition on_dot (sp : conv_spec) (c : ascii) (ap : list fmt_arg)
    : step_result :=
  if Ascii.eqb c "."
  then Some (InSpec PhPrecStart (set_precision (Some 0) sp), "", ap)
  else on_length sp c ap.

(** An int argument that gives a field width or a precision. *)
Definition take_star (ap : list fmt_arg) : option (Z * list fmt_arg) :=
  match ap with
  | ArgInt z :: ap' =>
      if ((int_min <=? z) && (z <=? int_max))%Z then Some (z, ap') else None
  | _ => None
  end.

Definition on_width_start (sp : conv_spec) (c : ascii) (ap : list fmt_arg)
    : step_result :=
  if Ascii.eqb c "*" then
    match take_star ap with
    | Some (w, ap') =>
        Some (InSpec PhAfterWidth
                (if (w <? 0)%Z
                 then set_flag "-" (set_width (Some (Z.to_nat (- w))) sp)
                 else set_width (Some (Z.to_nat w)) sp), "", ap')
    | None => None
    end
  else if is_digit c
  then Some (InSpec PhWidth (set_width (Some (digit_value c)) sp), "", ap)
  else on_dot sp c ap.

Definition more_digits (n : option nat) (c : ascii) : option nat :=
  Some (10 * match n with Some k => k | None => 0 end + digit_value c).

Definition step_spec (ph : phase) (sp : conv_spec) (c : ascii)
    (ap : list fmt_arg) : step_result :=
  match ph with
  | PhFlags =>
      if is_flag c then Some (InSpec PhFlags (set_flag c sp), "", ap)
      else on_width_start sp c ap
  | PhWidth =>
      if is_digit c
      then Some (InSpec PhWidth (set_width (more_digits (width sp) c) sp),
                 "", ap)
      else on_dot sp c ap
  | PhAfterWidth => on_dot sp c ap
  | PhPrecStart =>
      if Ascii.eqb c "*" then
        match take_star ap with
        | Some (p, ap') =>
            Some (InSpec PhAfterPrec
                    (set_precision
                       (if (p <? 0)%Z then None else Some (Z.to_nat p)) sp),
                  "", ap')
        | None => None
        end
      else if is_digit c
      then Some (InSpec PhPrec (set_precision (Some (digit_value c)) sp),
                 "", ap)
      else on_length sp c ap
  | PhPrec =>
      if is_digit c
      then Some (InSpec PhPrec
                   (set_precision (more_digits (precision sp) c) sp), "", ap)
      else on_length sp c ap
  | PhAfterPrec => on_length sp c ap
  | PhLenH =>
      if Ascii.eqb c "h"
      then Some (InSpec PhConv (set_len Len_hh sp), "", ap)
      else on_conversion sp c ap
  | PhLenL =>
      if Ascii.eqb c "l"
      then Some (InSpec PhConv (set_len Len_ll sp), "", ap)
      else on_conversion sp c ap
  | PhConv => on_conversion sp c ap
  end.

Definition step (st : scan_state) (c : ascii) (ap : list fmt_arg)
    : step_result :=
  match st with
  | InText =>
      if Ascii.eqb c "%" then Some (InSpec PhFlags empty_spec, "", ap)
      else Some (InText, String c "", ap)
  | InSpec ph sp => step_spec ph sp c ap
  end.

Fixpoint vformat_in (st : scan_state) (fmt : string) (ap : list fmt_arg)
    : option string :=
  match fmt with
  | EmptyString =>
      match st with
      | InText => Some EmptyString
      | InSpec _ _ => None
      end
  | String c rest =>
      match step st c ap with
      | Some (st', out, ap') =>
          option_map (append out) (vformat_in st' rest ap')
      | None => None
      end
  end.

(** Modelled from the spec: the expansion of a format string against its
    arguments (the work of vsnprintf inside ten_string_init_formatted and
    ten_string_append_from_va_list, whose sources are in ten_utils),
    after the fprintf rules of the C standard: flags, field width,
    precision (each also taken from an argument), length modifiers, and the conversions
    d i u o x X c s p n %% and the floating-point ones, the last through
    the rendering their argument carries. The result is the whole
    expansion, whatever its length. [None] stands for a call the C
    standard leaves undefined: a malformed or incomplete specification,
    a flag, precision or length modifier on a conversion that does not
    take it, a missing argument or an argument of the wrong kind.
    Surplus arguments are ignored, as in C. *)
Definition vformat (fmt : string) (ap : list fmt_arg) : option string :=
  vformat_in InText fmt ap.

(** The text holds no % character, hence no conversion specification. *)
Fixpoint percent_free (s : string) : bool :=
  match s with
  | EmptyString => true
  | String c rest => negb (Ascii.eqb c "%") && percent_free rest
  end.

(* ===================================================================== *)
(** ** Handles, sink calls and effects *)
(* ===================================================================== *)

Definition thread_id : Type := nat.

(** TEN_LOG_LEVEL is a C enumeration; the facade never inspects it. *)
Definition TEN_LOG_LEVEL : Type := Z.

(** Modelled from the spec: the runtime environment handle (ten_env_t is
    declared in ten_env.h, outside this file). The facade reads three
    attributes of it: the attached instance name, the owning-thread
    descriptor and the closed flag. *)
Record ten_env_t : Type := {
  attached_instance_name : string;
  owner_thread : thread_id;
  closed : bool
}.

(** What is fixed around one call: the thread that makes it, and whether
    the translation unit was compiled with OS_WINDOWS defined. *)
Record context : Type := {
  calling_thread : thread_id;
  OS_WINDOWS : bool
}.

(** How a call ends: a normal return, the abort of a failed TEN_ASSERT,
    or undefined behaviour of the C program. *)
Inductive outcome (A : Type) : Type :=
| Returned (a : A)
| Aborted
| Undefined.
Arguments Returned {A} a.
Arguments Aborted {A}.
Arguments Undefined {A}.

Section Effects.

(** The structured fields value (ten_value_t) is opaque to the facade,
    which only passes the pointer on. *)
Context {ten_value_t : Type}.

(** The two ingestion forms of the global sink, with the arguments the
    facade hands over. The message is the text of the composed buffer. *)
Inductive sink_call : Type :=
| LogLog (level : TEN_LOG_LEVEL) (func_name file_name : cptr)
         (line_no : nat) (msg : string) (category : cptr)
         (fields : option ten_value_t)
| LogLogWithSize (level : TEN_LOG_LEVEL)
         (func_name : cptr) (func_name_len : nat)
         (file_name : cptr) (file_name_len : nat)
         (line_no : nat) (msg : string) (msg_len : nat)
         (category : cptr) (category_len : nat)
         (fields : option ten_value_t).

(** The effects a call can have, as seen from outside the facade: the
    three reads of the handle, the write to standard error and the
    submission of a record to the global sink. *)
Inductive event : Type :=
| EvIsClosed
| EvCheckIntegrity (check_thread : bool)
| EvGetName (check_thread : bool)
| EvStderr (text : string)
| EvSubmit (c : sink_call).

(** A computation: how it ends, and the effects it had until then. *)
Definition M (A : Type) : Type := (outcome A * list event)%type.

Definition ret {A} (a : A) : M A := (Returned a, []).
Definition abort {A} : M A := (Aborted, []).
Definition undefined {A} : M A := (Undefined, []).
Definition emit (e : event) : M unit := (Returned tt, [e]).

Definition bind {A B} (m : M A) (k : A -> M B) : M B :=
  match m with
  | (Returned a, t) => let (o, t') := k a in (o, (t ++ t')%list)
  | (Aborted, t) => (Aborted, t)
  | (Undefined, t) => (Undefined, t)
  end.

Definition result {A} (m : M A) : outcome A := fst m.
Definition trace {A} (m : M A) : list event := snd m.

End Effects.

Arguments sink_call : clear implicits.
Arguments event : clear implicits.
Arguments M : clear implicits.

Declare Scope facade_scope.
Delimit Scope facade_scope with facade.
Notation "x <- m ;; k" := (bind m (fun x => k))
  (at level 61, m at next level, right associativity) : facade_scope.
Notation "m ;; k" := (bind m (fun _ => k))
  (at level 61, right associativity) : facade_scope.
Local Open Scope facade_scope.

(** *** Observations on a trace *)

Section Observations.

Context {ten_value_t : Type}.

(** The records submitted to the global sink, in order. *)
Fixpoint sink_calls (t : list (event ten_value_t)) : list (sink_call ten_value_t) :=
  match t with
  | [] => []
  | EvSubmit c :: t' => c :: sink_calls t'
  | _ :: t' => sink_calls t'
  end.

(** The texts written to standard error, in order. *)
Fixpoint stderr_writes (t : list (event ten_value_t)) : list string :=
  match t with
  | [] => []
  | EvStderr s :: t' => s :: stderr_writes t'
  | _ :: t' => stderr_writes t'
  end.

(** The event reads handle state other than the closed flag. *)
Definition reads_beyond_closed_flag (e : event ten_value_t) : bool :=
  match e with
  | EvCheckIntegrity _ | EvGetName _ => true
  | _ => false
  end.

(** The event resolves the instance name. *)
Definition reads_instance_name (e : event ten_value_t) : bool :=
  match e with
  | EvGetName _ => true
  | _ => false
  end.

(** The event compares the calling thread with the owning-thread
    descriptor of the handle. *)
Definition reads_thread_descriptor (e : event ten_value_t) : bool :=
  match e with
  | EvCheckIntegrity true | EvGetName true => true
  | _ => false
  end.

(** The event consults the closed flag. *)
Definition reads_closed_flag (e : event ten_value_t) : bool :=
  match e with
  | EvIsClosed => true
  | _ => false
  end.

Definition sink_msg (c : sink_call ten_value_t) : string :=
  match c with
  | LogLog _ _ _ _ msg _ _ => msg
  | LogLogWithSize _ _ _ _ _ _ msg _ _ _ _ => msg
  end.

Definition sink_category (c : sink_call ten_value_t) : cptr :=
  match c with
  | LogLog _ _ _ _ _ category _ => category
  | LogLogWithSize _ _ _ _ _ _ _ _ category _ _ => category
  end.

Definition sink_fields (c : sink_call ten_value_t) : option ten_value_t :=
  match c with
  | LogLog _ _ _ _ _ _ fields => fields
  | LogLogWithSize _ _ _ _ _ _ _ _ _ _ fields => fields
  end.

Definition sink_func_name (c : sink_call ten_value_t) : cptr :=
  match c with
  | LogLog _ func_name _ _ _ _ _ => func_name
  | LogLogWithSize _ func_name _ _ _ _ _ _ _ _ _ => func_name
  end.

Definition sink_file_name (c : sink_call ten_value_t) : cptr :=
  match c with
  | LogLog _ _ file_name _ _ _ _ => file_name
  | LogLogWithSize _ _ _ file_name _ _ _ _ _ _ _ => file_name
  end.

(** The message length, for the form that carries one. *)
Definition sink_msg_len (c : sink_call ten_value_t) : option nat :=
  match c with
  | LogLog _ _ _ _ _ _ _ => None
  | LogLogWithSize _ _ _ _ _ _ _ msg_len _ _ _ => Some msg_len
  end.

(** The category length, for the form that carries one. *)
Definition sink_category_len (c : sink_call ten_value_t) : option nat :=
  match c with
  | LogLog _ _ _ _ _ _ _ => None
  | LogLogWithSize _ _ _ _ _ _ _ _ _ category_len _ => Some category_len
  end.

(** The call uses the length-qualified form of the sink. *)
Definition length_qualified (c : sink_call ten_value_t) : bool :=
  match c with
  | LogLog _ _ _ _ _ _ _ => false
  | LogLogWithSize _ _ _ _ _ _ _ _ _ _ _ => true
  end.

(** The sink call carries the category, its length (where the form has
    one) and the fields exactly as given. *)
Definition forwards (category : cptr) (category_len : option nat)
    (fields : option ten_value_t) (c : sink_call ten_value_t) : Prop :=
  sink_category c = category /\
  sink_category_len c = category_len /\
  sink_fields c = fields.

End Observations.

(* ===================================================================== *)
(** ** The facade *)
(* ===================================================================== *)

Definition LF : string := String (ascii_of_nat 10) EmptyString.

Section Facade.

Context {ten_value_t : Type}.
Variable cx : context.

Local Abbreviation M := (M ten_value_t).

(** *** Collaborators *)

(** Reading a character pointer as a C string, as strlen and the %s
    directive do: undefined on a null or unterminated pointer. *)
Definition read_c_str (p : cptr) : M string :=
  match c_str p with
  | Some s => ret s
  | None => undefined
  end.

Definition c_strlen (p : cptr) : M nat :=
  match strlen p with
  | Some n => ret n
  | None => undefined
  end.

(** Modelled from the spec: TEN_ASSERT (a macro of ten_utils) is fatal on
    violation: the process aborts. *)
Definition TEN_ASSERT (cond : bool) : M unit :=
  if cond then ret tt else abort.

(** Modelled from the spec: the capability currentThreadMatches(handle). *)
Definition current_thread_matches (h : ten_env_t) : bool :=
  Nat.eqb (calling_thread cx) (owner_thread h).

(** Modelled from the spec: the thread-integrity gate holds when the
    calling thread is the owning thread, or when it is not enforced. *)
Definition gate_open (h : ten_env_t) (check_thread : bool) : bool :=
  if check_thread then current_thread_matches h else true.

(** Modelled from the spec: ten_env_is_closed (ten_env.h) reports the
    closed flag of the handle; a null handle is a fatal precondition
    violation. *)
Definition ten_env_is_closed (self : option ten_env_t) : M bool :=
  match self with
  | None => abort
  | Some h => emit EvIsClosed ;; ret (closed h)
  end.

(** Modelled from the spec: ten_env_check_integrity (ten_env.h) holds
    when the calling thread equals the owning thread of the handle,
    unless the check is not enforced. *)
Definition ten_env_check_integrity (h : ten_env_t) (check_thread : bool) : M bool :=
  emit (EvCheckIntegrity check_thread) ;;
  ret (gate_open h check_thread).

(** Modelled from the spec: ten_env_get_attached_instance_name (ten_env.h)
    resolves the instance name and itself respects the enforce flag. *)
Definition ten_env_get_attached_instance_name (h : ten_env_t) (check_thread : bool) : M string :=
  emit (EvGetName check_thread) ;;
  TEN_ASSERT (gate_open h check_thread) ;;
  ret (attached_instance_name h).

(** Modelled from the spec: ten_string_t (ten_utils/lib/string.h) is a
    growable text buffer, given here by its contents;
    ten_string_init_formatted fills it with the expansion of a format. *)
Definition ten_string_t : Type := string.

Definition ten_string_init_formatted (fmt : string) (ap : list fmt_arg) : M ten_string_t :=
  match vformat fmt ap with
  | Some s => ret s
  | None => undefined
  end.

(** Modelled from the spec: ten_string_append_from_va_list appends the
    whole expansion of the format, the buffer growing as needed. *)
Definition ten_string_append_from_va_list (s : ten_string_t) (fmt : cptr) (ap : list fmt_arg) : M ten_string_t :=
  f <- read_c_str fmt ;;
  match vformat f ap with
  | Some e => ret (s ++ e)
  | None => undefined
  end.

Definition ten_string_get_raw_str (s : ten_string_t) : string := s.
Definition ten_string_len (s : ten_string_t) : nat := String.length s.
Definition ten_string_deinit (s : ten_string_t) : M unit := ret tt.

(** Modelled from the spec: the two forms of submit_record on the global
    sink (ten_log_log and ten_log_log_with_size of ten_utils/log). *)
Definition ten_log_log (level : TEN_LOG_LEVEL) (func_name file_name : cptr)
    (line_no : nat) (msg : string) (category : cptr)
    (fields : option ten_value_t) : M unit :=
  emit (EvSubmit (LogLog level func_name file_name line_no msg category fields)).

Definition ten_log_log_with_size (level : TEN_LOG_LEVEL)
    (func_name : cptr) (func_name_len : nat)
    (file_name : cptr) (file_name_len : nat)
    (line_no : nat) (msg : string) (msg_len : nat)
    (category : cptr) (category_len : nat)
    (fields : option ten_value_t) : M unit :=
  emit (EvSubmit (LogLogWithSize level func_name func_name_len file_name
                    file_name_len line_no msg msg_len category category_len
                    fields)).

(** dprintf(STDERR_FILENO, fmt, msg) with one %s argument: one write of
    the expanded text to standard error. *)
Definition dprintf_stderr (fmt : string) (msg : cptr) : M unit :=
  body <- read_c_str msg ;;
  match vformat fmt [ArgStr body] with
  | Some text => emit (EvStderr text)
  | None => undefined
  end.

(** *** log.c *)

(** Lines 18-35. The %s directive of the format reads [msg] after the
    instance name has been resolved. *)
Definition ten_env_log_internal (self : option ten_env_t)
    (level : TEN_LOG_LEVEL) (func_name file_name : cptr) (line_no : nat)
    (msg : cptr) (category : cptr) (fields : option ten_value_t)
    (check_thread : bool) : M unit :=
  match self with
  | None => TEN_ASSERT false
  | Some h =>
      ok <- ten_env_check_integrity h check_thread ;;
      TEN_ASSERT ok ;;
      name <- ten_env_get_attached_instance_name h check_thread ;;
      body <- read_c_str msg ;;
      final_msg <- ten_string_init_formatted "[%s] %s" [ArgStr name; ArgStr body] ;;
      ten_log_log level func_name file_name line_no
        (ten_string_get_raw_str final_msg) category fields ;;
      ten_string_deinit final_msg
  end.

(** Lines 42-49. *)
Definition ten_env_log_without_check_thread (self : option ten_env_t)
    (level : TEN_LOG_LEVEL) (func_name file_name : cptr) (line_no : nat)
    (msg : cptr) (category : cptr) (fields : option ten_value_t) : M unit :=
  ten_env_log_internal self level func_name file_name line_no msg
    category fields false.

(** Lines 51-63. *)
Definition ten_env_log (self : option ten_env_t)
    (level : TEN_LOG_LEVEL) (func_name file_name : cptr) (line_no : nat)
    (msg : cptr) (category : cptr) (fields : option ten_value_t) : M unit :=
  is_closed <- ten_env_is_closed self ;;
  if is_closed then
    if OS_WINDOWS cx then ret tt
    else dprintf_stderr ("ten_env_log failed due to closed: %s" ++ LF) msg
  else
    ten_env_log_internal self level func_name file_name line_no msg
      category fields true.

(** Lines 65-86. *)
Definition ten_env_log_with_size_formatted_internal (self : option ten_env_t)
    (level : TEN_LOG_LEVEL) (func_name : cptr) (func_name_len : nat)
    (file_name : cptr) (file_name_len : nat) (line_no : nat)
    (check_thread : bool) (category : cptr) (category_len : nat)
    (fields : option ten_value_t) (fmt : cptr) (ap : list fmt_arg) : M unit :=
  match self with
  | None => TEN_ASSERT false
  | Some h =>
      ok <- ten_env_check_integrity h check_thread ;;
      TEN_ASSERT ok ;;
      name <- ten_env_get_attached_instance_name h check_thread ;;
      final_msg <- ten_string_init_formatted "[%s] " [ArgStr name] ;;
      final_msg <- ten_string_append_from_va_list final_msg fmt ap ;;
      ten_log_log_with_size level func_name func_name_len file_name
        file_name_len line_no (ten_string_get_raw_str final_msg)
        (ten_string_len final_msg) category category_len fields ;;
      ten_string_deinit final_msg
  end.

(** Lines 93-106. *)
Definition ten_env_log_with_size_formatted_without_check_thread
    (self : option ten_env_t) (level : TEN_LOG_LEVEL)
    (func_name : cptr) (func_name_len : nat)
    (file_name : cptr) (file_name_len : nat) (line_no : nat)
    (category : cptr) (category_len : nat) (fields : option ten_value_t)
    (fmt : cptr) (ap : list fmt_arg) : M unit :=
  ten_env_log_with_size_formatted_internal self level func_name
    func_name_len file_name file_name_len line_no false category
    category_len fields fmt ap.

(** Lines 108-121. *)
Definition ten_env_log_with_size_formatted
    (self : option ten_env_t) (level : TEN_LOG_LEVEL)
    (func_name : cptr) (func_name_len : nat)
    (file_name : cptr) (file_name_len : nat) (line_no : nat)
    (category : cptr) (category_len : nat) (fields : option ten_value_t)
    (fmt : cptr) (ap : list fmt_arg) : M unit :=
  ten_env_log_with_size_formatted_internal self level func_name
    func_name_len file_name file_name_len line_no true category
    category_len fields fmt ap.

(** Lines 123-136. The two strlen calls are arguments of the call to the
    internal function, so they are evaluated before its body runs. *)
Definition ten_env_log_formatted
    (self : option ten_env_t) (level : TEN_LOG_LEVEL)
    (func_name file_name : cptr) (line_no : nat)
    (category : cptr) (category_len : nat) (fields : option ten_value_t)
    (fmt : cptr) (ap : list fmt_arg) : M unit :=
  func_name_len <- c_strlen func_name ;;
  file_name_len <- c_strlen file_name ;;
  ten_env_log_with_size_formatted_internal self level func_name
    func_name_len file_name file_name_len line_no true category
    category_len fields fmt ap.

End Facade.

(* ===================================================================== *)
(** ** Sample inputs *)
(* ===================================================================== *)

(** A handle named ext and owned by thread 1. *)
Definition sample_env (is_closed : bool) : ten_env_t :=
  {| attached_instance_name := "ext"; owner_thread := 1; closed := is_closed |}.

Definition owner_posix : context := {| calling_thread := 1; OS_WINDOWS := false |}.
Definition owner_windows : context := {| calling_thread := 1; OS_WINDOWS := true |}.
Definition other_posix : context := {| calling_thread := 2; OS_WINDOWS := false |}.

Definition info : TEN_LOG_LEVEL := 3%Z.
Definition fn : cptr := literal "on_start".
Definition file : cptr := literal "ext.c".
Definition cat : cptr := literal "net".

(** A text of [n] copies of one character. *)
Fixpoint filler (n : nat) (c : ascii) : string :=
  match n with
  | O => EmptyString
  | S n' => String c (filler n' c)
  end.

(* ===================================================================== *)
(** ** Further observations on records and runs *)
(* ===================================================================== *)

Section RecordMetadata.

Context {ten_value_t : Type}.

Definition sink_level (c : sink_call ten_value_t) : TEN_LOG_LEVEL :=
  match c with
  | LogLog level _ _ _ _ _ _ => level
  | LogLogWithSize level _ _ _ _ _ _ _ _ _ _ => level
  end.

Definition sink_line_no (c : sink_call ten_value_t) : nat :=
  match c with
  | LogLog _ _ _ line_no _ _ _ => line_no
  | LogLogWithSize _ _ _ _ _ line_no _ _ _ _ _ => line_no
  end.

(** The lengths of the function and file names, for the form that
    carries them. *)
Definition sink_func_name_len (c : sink_call ten_value_t) : option nat :=
  match c with
  | LogLog _ _ _ _ _ _ _ => None
  | LogLogWithSize _ _ func_name_len _ _ _ _ _ _ _ _ => Some func_name_len
  end.

Definition sink_file_name_len (c : sink_call ten_value_t) : option nat :=
  match c with
  | LogLog _ _ _ _ _ _ _ => None
  | LogLogWithSize _ _ _ _ file_name_len _ _ _ _ _ _ => Some file_name_len
  end.

(** The source locator and level of a record are those given. *)
Definition located (level : TEN_LOG_LEVEL) (func_name file_name : cptr)
    (line_no : nat) (c : sink_call ten_value_t) : Prop :=
  sink_level c = level /\
  sink_func_name c = func_name /\
  sink_file_name c = file_name /\
  sink_line_no c = line_no.

(** The check_thread flag an event was made with, for the two reads of
    the handle that take one. *)
Definition enforce_flag (e : event ten_value_t) : option bool :=
  match e with
  | EvCheckIntegrity b | EvGetName b => Some b
  | _ => None
  end.

(** Every read of the handle that takes a check_thread flag was made
    with the flag [b]. *)
Definition flags_all (b : bool) (t : list (event ten_value_t)) : bool :=
  forallb (fun e => match enforce_flag e with
                    | Some b' => Bool.eqb b b'
                    | None => true
                    end) t.

(** A run submits nothing, or returns normally after submitting one
    record as its last effect. *)
Definition submits_once_at_end {A : Type} (r : M ten_value_t A) : Prop :=
  sink_calls (trace r) = [] \/
  exists (a : A) (c : sink_call ten_value_t) (t0 : list (event ten_value_t)),
    result r = Returned a /\
    trace r = (t0 ++ [EvSubmit c])%list /\
    sink_calls t0 = [].

End RecordMetadata.

(** The handle with its closed flag set to [b]. *)
Definition set_closed (b : bool) (h : ten_env_t) : ten_env_t :=
  {| attached_instance_name := attached_instance_name h;
     owner_thread := owner_thread h;
     closed := b |}.

(* ===================================================================== *)
(** ** C strings and expansion: basic facts *)
(* ===================================================================== *)

Lemma append_empty_r (s : string) : s ++ "" = s.
Proof.
  induction s as [|c s IH]; simpl; [reflexivity | now rewrite IH].
Qed.

Lemma length_append (s t : string) :
  String.length (s ++ t) = String.length s + String.length t.
Proof.
  induction s as [|c s IH]; simpl; [reflexivity | now rewrite IH].
Qed.

(** A text without NUL bytes, followed by its terminator, reads back as
    itself. *)
Lemma c_str_literal (s : string) :
  nul_free s = true -> c_str (literal s) = Some s.
Proof.
  unfold literal, c_str.
  induction s as [|c s IH]; simpl; intros H.
  - reflexivity.
  - apply andb_true_iff in H as [Hc Hs].
    apply negb_true_iff in Hc. rewrite Hc, (IH Hs). reflexivity.
Qed.

(** What is read from a pointer never contains the terminator. *)
Lemma scan_nul_free (mem s : string) :
  scan mem = Some s -> nul_free s = true.
Proof.
  revert s. induction mem as [|c mem IH]; simpl; intros s H.
  - discriminate.
  - destruct (Ascii.eqb c NUL) eqn:Hc.
    + injection H as <-. reflexivity.
    + destruct (scan mem) as [r|]; simpl in H; [|discriminate].
      injection H as <-. simpl. rewrite Hc, (IH r eq_refl). reflexivity.
Qed.

Lemma strlen_defined (p : cptr) (n : nat) :
  strlen p = Some n <-> exists s, c_str p = Some s /\ String.length s = n.
Proof.
  unfold strlen. destruct (c_str p) as [s|]; simpl; split.
  - intros H. injection H as <-. now exists s.
  - intros (s' & Hs & Hn). injection Hs as ->. now rewrite Hn.
  - discriminate.
  - intros (s' & Hs & _). discriminate.
Qed.

Lemma strlen_undefined (p : cptr) :
  strlen p = None <-> c_str p = None.
Proof.
  unfold strlen. destruct (c_str p); simpl; split; congruence.
Qed.

(** The three formats that log.c writes out. *)
Lemma vformat_name_body (name body : string) :
  vformat "[%s] %s" [ArgStr name; ArgStr body]
  = Some ("[" ++ name ++ "] " ++ body).
Proof.
  cbv -[append]. cbn. rewrite append_empty_r. reflexivity.
Qed.

Lemma vformat_name (name : string) :
  vformat "[%s] " [ArgStr name] = Some ("[" ++ name ++ "] ").
Proof. reflexivity. Qed.

Lemma vformat_closed_diagnostic (body : string) :
  vformat ("ten_env_log failed due to closed: %s" ++ LF) [ArgStr body]
  = Some ("ten_env_log failed due to closed: " ++ body ++ LF).
Proof. reflexivity. Qed.

Lemma append_assoc (s t u : string) : (s ++ t) ++ u = s ++ t ++ u.
Proof.
  induction s as [|c s IH]; simpl; [reflexivity | now rewrite IH].
Qed.

(* ===================================================================== *)
(** ** Run equations of the two internal functions *)
(* ===================================================================== *)

Section RunEquations.

Context {ten_value_t : Type}.
Variable cx : context.

Lemma ten_env_log_internal_run (h : ten_env_t) level func_name file_name
    line_no msg category (fields : option ten_value_t) check_thread :
  ten_env_log_internal cx (Some h) level func_name file_name line_no msg
    category fields check_thread
  = if gate_open cx h check_thread then
      match c_str msg with
      | Some body =>
          (Returned tt,
           [EvCheckIntegrity check_thread; EvGetName check_thread;
            EvSubmit (LogLog level func_name file_name line_no
                        ("[" ++ attached_instance_name h ++ "] " ++ body)
                        category fields)])
      | None =>
          (Undefined, [EvCheckIntegrity check_thread; EvGetName check_thread])
      end
    else (Aborted, [EvCheckIntegrity check_thread]).
Proof.
  unfold ten_env_log_internal, ten_env_check_integrity,
    ten_env_get_attached_instance_name, read_c_str,
    ten_string_init_formatted.
  destruct (gate_open cx h check_thread); [|reflexivity].
  destruct (c_str msg) as [body|]; [|reflexivity].
  cbn -[vformat append]. rewrite vformat_name_body. reflexivity.
Qed.

Lemma ten_env_log_with_size_formatted_internal_run (h : ten_env_t) level
    func_name func_name_len file_name file_name_len line_no check_thread
    category category_len (fields : option ten_value_t) fmt ap :
  ten_env_log_with_size_formatted_internal cx (Some h) level func_name
    func_name_len file_name file_name_len line_no check_thread category
    category_len fields fmt ap
  = if gate_open cx h check_thread then
      match option_map (fun f => vformat f ap) (c_str fmt) with
      | Some (Some body) =>
          let final_msg := "[" ++ attached_instance_name h ++ "] " ++ body in
          (Returned tt,
           [EvCheckIntegrity check_thread; EvGetName check_thread;
            EvSubmit (LogLogWithSize level func_name func_name_len
                        file_name file_name_len line_no final_msg
                        (String.length final_msg) category category_len
                        fields)])
      | _ =>
          (Undefined, [EvCheckIntegrity check_thread; EvGetName check_thread])
      end
    else (Aborted, [EvCheckIntegrity check_thread]).
Proof.
  unfold ten_env_log_with_size_formatted_internal, ten_env_check_integrity,
    ten_env_get_attached_instance_name, ten_string_append_from_va_list,
    read_c_str, ten_string_init_formatted.
  destruct (gate_open cx h check_thread); [|reflexivity].
  cbn -[vformat append]. rewrite vformat_name.
  destruct (c_str fmt) as [f|]; [|reflexivity].
  cbn -[vformat append]. destruct (vformat f ap) as [body|]; [|reflexivity].
  unfold ten_string_get_raw_str, ten_string_len. simpl.
  rewrite append_assoc. reflexivity.
Qed.

(** A null handle fails the assertion on its first conjunct. *)
Lemma ten_env_log_internal_null level func_name file_name line_no msg
    category (fields : option ten_value_t) check_thread :
  ten_env_log_internal cx None level func_name file_name line_no msg
    category fields check_thread = (Aborted, []).
Proof. reflexivity. Qed.

Lemma ten_env_log_with_size_formatted_internal_null level func_name
    func_name_len file_name file_name_len line_no check_thread category
    category_len (fields : option ten_value_t) fmt ap :
  ten_env_log_with_size_formatted_internal cx None level func_name
    func_name_len file_name file_name_len line_no check_thread category
    category_len fields fmt ap = (Aborted, []).
Proof. reflexivity. Qed.

(** ten_env_log on a handle: the closed-state guard, then the internal
    function with the thread check enforced. *)
Lemma ten_env_log_run (h : ten_env_t) level func_name file_name line_no
    msg category (fields : option ten_value_t) :
  ten_env_log cx (Some h) level func_name file_name line_no msg category
    fields
  = if closed h then
      if OS_WINDOWS cx then (Returned tt, [EvIsClosed])
      else match c_str msg with
           | Some body =>
               (Returned tt,
                [EvIsClosed;
                 EvStderr ("ten_env_log failed due to closed: " ++ body ++ LF)])
           | None => (Undefined, [EvIsClosed])
           end
    else
      let (o, t) := ten_env_log_internal cx (Some h) level func_name
                      file_name line_no msg category fields true in
      (o, EvIsClosed :: t).
Proof.
  unfold ten_env_log, ten_env_is_closed, dprintf_stderr, read_c_str.
  destruct (closed h).
  - destruct (OS_WINDOWS cx); [reflexivity|].
    destruct (c_str msg) as [body|]; [|reflexivity].
    cbn -[vformat append LF]. rewrite vformat_closed_diagnostic. reflexivity.
  - cbn -[ten_env_log_internal].
    destruct (ten_env_log_internal _ _ _ _ _ _ _ _ _ _) as [o t].
    reflexivity.
Qed.

(** ten_env_log_formatted: the two strlen calls, then the internal
    function with the thread check enforced. *)
Lemma ten_env_log_formatted_run self level func_name file_name line_no
    category category_len (fields : option ten_value_t) fmt ap :
  ten_env_log_formatted cx self level func_name file_name line_no category
    category_len fields fmt ap
  = match strlen func_name, strlen file_name with
    | Some n1, Some n2 =>
        ten_env_log_with_size_formatted_internal cx self level func_name n1
          file_name n2 line_no true category category_len fields fmt ap
    | _, _ => (Undefined, [])
    end.
Proof.
  unfold ten_env_log_formatted, c_strlen.
  destruct (strlen func_name) as [n1|]; [|reflexivity].
  destruct (strlen file_name) as [n2|]; [|reflexivity].
  cbn -[ten_env_log_with_size_formatted_internal].
  destruct (ten_env_log_with_size_formatted_internal _ _ _ _ _ _ _ _ _ _ _ _ _ _)
    as [[a| |] t]; try reflexivity.
Qed.

End RunEquations.

(** The thread-integrity gate in terms of thread identities. *)
Lemma gate_open_enforced (cx : context) (h : ten_env_t) :
  gate_open cx h true = true <-> calling_thread cx = owner_thread h.
Proof.
  unfold gate_open, current_thread_matches. apply Nat.eqb_eq.
Qed.

Lemma gate_closed_enforced (cx : context) (h : ten_env_t) :
  gate_open cx h true = false <-> calling_thread cx <> owner_thread h.
Proof.
  unfold gate_open, current_thread_matches. apply Nat.eqb_neq.
Qed.

Lemma gate_open_unenforced (cx : context) (h : ten_env_t) :
  gate_open cx h false = true.
Proof. reflexivity. Qed.

(* ===================================================================== *)
(** ** The closed-state guard *)
(* ===================================================================== *)

(** The checked formatted entry points carry no closed-state guard: on a
    closed handle, called from the owning thread, ten_env_log_formatted
    checks integrity, resolves the name and submits the record. *)
Example ten_env_log_formatted_on_closed_handle :
  ten_env_log_formatted owner_posix (Some (sample_env true)) info fn file 7
    cat 3 (@None unit) (literal "%d items") [ArgInt 5]
  = (Returned tt,
     [EvCheckIntegrity true; EvGetName true;
      EvSubmit (LogLogWithSize info fn 8 file 5 7 "[ext] 5 items" 13 cat 3 None)]).
Proof. reflexivity. Qed.

(** C1, as stated, fails: ten_env_log_without_check_thread called on a
    closed handle resolves the instance name and submits a record to the
    global sink. *)
Lemma unchecked_log_on_closed_handle_submits :
  closed (sample_env true) = true /\
  existsb reads_instance_name
    (trace (ten_env_log_without_check_thread other_posix
              (Some (sample_env true)) info fn file 7 (literal "hello") cat
              (@None unit))) = true /\
  sink_calls
    (trace (ten_env_log_without_check_thread other_posix
              (Some (sample_env true)) info fn file 7 (literal "hello") cat
              (@None unit)))
  = [LogLog info fn file 7 "[ext] hello" cat None].
Proof. repeat split. Qed.

(** C1, amended: on a handle whose closed flag is true, ten_env_log reads
    the closed flag and nothing else of the handle (no integrity check, no
    resolution of the instance name, no read of the owning-thread
    descriptor) and submits no record to the global sink. The two
    unchecked entry points never consult the closed flag: on a closed
    handle they pass the integrity check with the thread check off,
    resolve the instance name and, given a well-formed message or format,
    submit one record. *)
Theorem closed_handle_guard (V : Type) (cx : context) (h : ten_env_t)
    (level : TEN_LOG_LEVEL) (func_name file_name : cptr)
    (func_name_len file_name_len line_no : nat) (msg category : cptr)
    (category_len : nat) (fields : option V) (fmt : cptr)
    (ap : list fmt_arg) :
  closed h = true ->
  (let t := trace (ten_env_log cx (Some h) level func_name file_name
                     line_no msg category fields) in
   filter reads_beyond_closed_flag t = [] /\
   existsb reads_instance_name t = false /\
   existsb reads_thread_descriptor t = false /\
   sink_calls t = []) /\
  (let t := trace (ten_env_log_without_check_thread cx (Some h) level
                     func_name file_name line_no msg category fields) in
   existsb reads_closed_flag t = false /\
   forall body, c_str msg = Some body ->
     t = [EvCheckIntegrity false; EvGetName false;
          EvSubmit (LogLog level func_name file_name line_no
                      ("[" ++ attached_instance_name h ++ "] " ++ body)
                      category fields)]) /\
  (let t := trace (ten_env_log_with_size_formatted_without_check_thread cx
                     (Some h) level func_name func_name_len file_name
                     file_name_len line_no category category_len fields
                     fmt ap) in
   existsb reads_closed_flag t = false /\
   forall f body, c_str fmt = Some f -> vformat f ap = Some body ->
     sink_calls t
     = [LogLogWithSize level func_name func_name_len file_name
          file_name_len line_no
          ("[" ++ attached_instance_name h ++ "] " ++ body)
          (String.length ("[" ++ attached_instance_name h ++ "] " ++ body))
          category category_len fields]).
Proof.
  intros Hclosed. repeat apply conj.
  - rewrite ten_env_log_run, Hclosed.
    destruct (OS_WINDOWS cx); [reflexivity|].
    destruct (c_str msg); reflexivity.
  - rewrite ten_env_log_run, Hclosed.
    destruct (OS_WINDOWS cx); [reflexivity|].
    destruct (c_str msg); reflexivity.
  - rewrite ten_env_log_run, Hclosed.
    destruct (OS_WINDOWS cx); [reflexivity|].
    destruct (c_str msg); reflexivity.
  - rewrite ten_env_log_run, Hclosed.
    destruct (OS_WINDOWS cx); [reflexivity|].
    destruct (c_str msg); reflexivity.
  - unfold ten_env_log_without_check_thread.
    rewrite ten_env_log_internal_run, gate_open_unenforced.
    destruct (c_str msg); reflexivity.
  - intros body Hmsg. unfold ten_env_log_without_check_thread.
    rewrite ten_env_log_internal_run, gate_open_unenforced, Hmsg.
    reflexivity.
  - unfold ten_env_log_with_size_formatted_without_check_thread.
    rewrite ten_env_log_with_size_formatted_internal_run,
      gate_open_unenforced.
    destruct (c_str fmt) as [f|]; simpl; [|reflexivity].
    destruct (vformat f ap); reflexivity.
  - intros f body Hfmt Hexp.
    unfold ten_env_log_with_size_formatted_without_check_thread.
    rewrite ten_env_log_with_size_formatted_internal_run,
      gate_open_unenforced, Hfmt. simpl option_map. rewrite Hexp.
    reflexivity.
Qed.

Lemma closed_handle_guard_witness :
  closed (sample_env true) = true /\
  sink_calls (trace (ten_env_log owner_posix (Some (sample_env true)) info
                       fn file 7 (literal "hello") cat (@None unit))) = [].
Proof.
  split; [reflexivity|].
  apply (closed_handle_guard unit owner_posix (sample_env true) info fn
           file 8 5 7 (literal "hello") cat 3 None (literal "%d items")
           [ArgInt 5] eq_refl).
Defined.

(** C2, as stated, fails: where OS_WINDOWS is defined the closed-handle
    path of ten_env_log writes nothing at all. *)
Lemma closed_log_on_windows_writes_nothing :
  closed (sample_env true) = true /\
  c_str (literal "hello") = Some "hello" /\
  stderr_writes
    (trace (ten_env_log owner_windows (Some (sample_env true)) info fn file
              7 (literal "hello") cat (@None unit))) = [].
Proof. repeat split. Qed.

(** C2, amended: on a closed handle ten_env_log builds and dispatches no
    record and returns normally. Where OS_WINDOWS is not defined it makes
    exactly one write to standard error, the text
    "ten_env_log failed due to closed: " followed by the caller's message,
    unprefixed, and a line feed; where OS_WINDOWS is defined it makes no
    write. Reading the closed flag is its only other effect. *)
Theorem closed_handle_diagnostic (V : Type) (cx : context) (h : ten_env_t)
    (level : TEN_LOG_LEVEL) (func_name file_name : cptr) (line_no : nat)
    (msg category : cptr) (fields : option V) (body : string) :
  closed h = true ->
  c_str msg = Some body ->
  ten_env_log cx (Some h) level func_name file_name line_no msg category
    fields
  = (Returned tt,
     EvIsClosed ::
       (if OS_WINDOWS cx then []
        else [EvStderr ("ten_env_log failed due to closed: " ++ body ++ LF)])).
Proof.
  intros Hclosed Hmsg.
  rewrite ten_env_log_run, Hclosed, Hmsg.
  destruct (OS_WINDOWS cx); reflexivity.
Qed.

Lemma closed_handle_diagnostic_witness :
  closed (sample_env true) = true /\
  c_str (literal "hello") = Some "hello" /\
  ten_env_log owner_posix (Some (sample_env true)) info fn file 7
    (literal "hello") cat (@None unit)
  = (Returned tt,
     [EvIsClosed;
      EvStderr ("ten_env_log failed due to closed: hello" ++ LF)]).
Proof.
  split; [reflexivity|]. split; [reflexivity|].
  apply (closed_handle_diagnostic unit owner_posix (sample_env true) info
           fn file 7 (literal "hello") cat None "hello" eq_refl eq_refl).
Defined.

(* ===================================================================== *)
(** ** Length-qualified and null-terminated formatted variants *)
(* ===================================================================== *)

(** C4: given NUL-terminated function and file names and their strlen
    lengths, ten_env_log_formatted and ten_env_log_with_size_formatted
    behave identically: the same outcome and the same effects, hence the
    same record (message text and length, names and lengths, line,
    category and its length, fields). *)
Theorem formatted_variants_agree (V : Type) (cx : context)
    (self : option ten_env_t) (level : TEN_LOG_LEVEL)
    (func_name file_name : cptr) (n1 n2 line_no : nat) (category : cptr)
    (category_len : nat) (fields : option V) (fmt : cptr)
    (ap : list fmt_arg) :
  strlen func_name = Some n1 ->
  strlen file_name = Some n2 ->
  ten_env_log_formatted cx self level func_name file_name line_no category
    category_len fields fmt ap
  = ten_env_log_with_size_formatted cx self level func_name n1 file_name n2
      line_no category category_len fields fmt ap.
Proof.
  intros H1 H2. rewrite ten_env_log_formatted_run, H1, H2. reflexivity.
Qed.

Lemma formatted_variants_agree_witness :
  strlen fn = Some 8 /\
  strlen file = Some 5 /\
  ten_env_log_formatted owner_posix (Some (sample_env false)) info fn file 7
    cat 3 (@None unit) (literal "%d items") [ArgInt 5]
  = ten_env_log_with_size_formatted owner_posix (Some (sample_env false))
      info fn 8 file 5 7 cat 3 None (literal "%d items") [ArgInt 5].
Proof.
  split; [reflexivity|]. split; [reflexivity|].
  apply (formatted_variants_agree unit owner_posix (Some (sample_env false))
           info fn file 8 5 7 cat 3 None (literal "%d items") [ArgInt 5]
           eq_refl eq_refl).
Defined.

(* ===================================================================== *)
(** ** Message composition on the checked entry points *)
(* ===================================================================== *)

(** C3: on an open handle, called from the owning thread, each checked
    entry point returns normally and delivers exactly one record to the
    sink, whose message is "[" + name + "] " + body: the body is the
    caller's message for ten_env_log and the expansion of the format for
    the two formatted entry points. *)
Theorem checked_entry_points_compose_prefixed_message (V : Type)
    (cx : context) (h : ten_env_t) (level : TEN_LOG_LEVEL)
    (func_name file_name : cptr) (func_name_len file_name_len line_no : nat)
    (msg category : cptr) (category_len : nat) (fields : option V)
    (fmt : cptr) (ap : list fmt_arg) (body f expansion : string)
    (n1 n2 : nat) :
  closed h = false ->
  calling_thread cx = owner_thread h ->
  c_str msg = Some body ->
  c_str fmt = Some f ->
  vformat f ap = Some expansion ->
  strlen func_name = Some n1 ->
  strlen file_name = Some n2 ->
  (let r := ten_env_log cx (Some h) level func_name file_name line_no msg
              category fields in
   result r = Returned tt /\
   sink_calls (trace r)
   = [LogLog level func_name file_name line_no
        ("[" ++ attached_instance_name h ++ "] " ++ body) category fields]) /\
  (let r := ten_env_log_with_size_formatted cx (Some h) level func_name
              func_name_len file_name file_name_len line_no category
              category_len fields fmt ap in
   result r = Returned tt /\
   sink_calls (trace r)
   = [LogLogWithSize level func_name func_name_len file_name
        file_name_len line_no
        ("[" ++ attached_instance_name h ++ "] " ++ expansion)
        (String.length ("[" ++ attached_instance_name h ++ "] " ++ expansion))
        category category_len fields]) /\
  (let r := ten_env_log_formatted cx (Some h) level func_name file_name
              line_no category category_len fields fmt ap in
   result r = Returned tt /\
   sink_calls (trace r)
   = [LogLogWithSize level func_name n1 file_name n2 line_no
        ("[" ++ attached_instance_name h ++ "] " ++ expansion)
        (String.length ("[" ++ attached_instance_name h ++ "] " ++ expansion))
        category category_len fields]).
Proof.
  intros Hopen Hthread Hmsg Hfmt Hexp H1 H2.
  apply gate_open_enforced in Hthread.
  repeat apply conj.
  - rewrite ten_env_log_run, Hopen, ten_env_log_internal_run, Hthread, Hmsg.
    reflexivity.
  - rewrite ten_env_log_run, Hopen, ten_env_log_internal_run, Hthread, Hmsg.
    reflexivity.
  - unfold ten_env_log_with_size_formatted.
    rewrite ten_env_log_with_size_formatted_internal_run, Hthread, Hfmt.
    simpl option_map. rewrite Hexp. reflexivity.
  - unfold ten_env_log_with_size_formatted.
    rewrite ten_env_log_with_size_formatted_internal_run, Hthread, Hfmt.
    simpl option_map. rewrite Hexp. reflexivity.
  - rewrite ten_env_log_formatted_run, H1, H2,
      ten_env_log_with_size_formatted_internal_run, Hthread, Hfmt.
    simpl option_map. rewrite Hexp. reflexivity.
  - rewrite ten_env_log_formatted_run, H1, H2,
      ten_env_log_with_size_formatted_internal_run, Hthread, Hfmt.
    simpl option_map. rewrite Hexp. reflexivity.
Qed.

Lemma checked_entry_points_compose_prefixed_message_witness :
  closed (sample_env false) = false /\
  calling_thread owner_posix = owner_thread (sample_env false) /\
  c_str (literal "hello") = Some "hello" /\
  c_str (literal "%d items") = Some "%d items" /\
  vformat "%d items" [ArgInt 5] = Some "5 items" /\
  strlen fn = Some 8 /\
  strlen file = Some 5 /\
  sink_calls (trace (ten_env_log owner_posix (Some (sample_env false)) info
                       fn file 7 (literal "hello") cat (@None unit)))
  = [LogLog info fn file 7 "[ext] hello" cat None].
Proof.
  repeat (split; [reflexivity|]).
  apply (checked_entry_points_compose_prefixed_message unit owner_posix
           (sample_env false) info fn file 8 5 7 (literal "hello") cat 3
           None (literal "%d items") [ArgInt 5] "hello" "%d items"
           "5 items" 8 5 eq_refl eq_refl eq_refl eq_refl eq_refl eq_refl
           eq_refl).
Defined.

(* ===================================================================== *)
(** ** The thread-integrity gate *)
(* ===================================================================== *)

(** C5: on an open handle, a checked entry point called from a thread
    other than the owning thread ends in the abort of the failed
    assertion, and no record reaches the sink. (For
    ten_env_log_formatted the function and file names are NUL-terminated
    strings, as its interface asks.) *)
Theorem checked_entry_points_abort_off_thread (V : Type) (cx : context)
    (h : ten_env_t) (level : TEN_LOG_LEVEL) (func_name file_name : cptr)
    (func_name_len file_name_len line_no : nat) (msg category : cptr)
    (category_len : nat) (fields : option V) (fmt : cptr)
    (ap : list fmt_arg) (n1 n2 : nat) :
  closed h = false ->
  calling_thread cx <> owner_thread h ->
  strlen func_name = Some n1 ->
  strlen file_name = Some n2 ->
  (let r := ten_env_log cx (Some h) level func_name file_name line_no msg
              category fields in
   result r = Aborted /\ sink_calls (trace r) = []) /\
  (let r := ten_env_log_with_size_formatted cx (Some h) level func_name
              func_name_len file_name file_name_len line_no category
              category_len fields fmt ap in
   result r = Aborted /\ sink_calls (trace r) = []) /\
  (let r := ten_env_log_formatted cx (Some h) level func_name file_name
              line_no category category_len fields fmt ap in
   result r = Aborted /\ sink_calls (trace r) = []).
Proof.
  intros Hopen Hthread H1 H2.
  apply gate_closed_enforced in Hthread.
  repeat apply conj.
  - rewrite ten_env_log_run, Hopen, ten_env_log_internal_run, Hthread.
    reflexivity.
  - rewrite ten_env_log_run, Hopen, ten_env_log_internal_run, Hthread.
    reflexivity.
  - unfold ten_env_log_with_size_formatted.
    rewrite ten_env_log_with_size_formatted_internal_run, Hthread.
    reflexivity.
  - unfold ten_env_log_with_size_formatted.
    rewrite ten_env_log_with_size_formatted_internal_run, Hthread.
    reflexivity.
  - rewrite ten_env_log_formatted_run, H1, H2,
      ten_env_log_with_size_formatted_internal_run, Hthread.
    reflexivity.
  - rewrite ten_env_log_formatted_run, H1, H2,
      ten_env_log_with_size_formatted_internal_run, Hthread.
    reflexivity.
Qed.

Lemma checked_entry_points_abort_off_thread_witness :
  closed (sample_env false) = false /\
  calling_thread other_posix <> owner_thread (sample_env false) /\
  strlen fn = Some 8 /\
  strlen file = Some 5 /\
  result (ten_env_log other_posix (Some (sample_env false)) info fn file 7
            (literal "hello") cat (@None unit)) = Aborted.
Proof.
  split; [reflexivity|]. split; [discriminate|].
  split; [reflexivity|]. split; [reflexivity|].
  apply (checked_entry_points_abort_off_thread unit other_posix
           (sample_env false) info fn file 8 5 7 (literal "hello") cat 3
           None (literal "%d items") [ArgInt 5] 8 5 eq_refl).
  - discriminate.
  - reflexivity.
  - reflexivity.
Defined.

(** C6: on a non-null handle that is not closed, the two unchecked entry
    points never end in the abort of the assertion, whatever the calling
    thread: the integrity check is made with the thread check off, the
    owning-thread descriptor is not read, and with a well-formed message
    (or format and arguments) the call returns normally. *)
Theorem unchecked_entry_points_never_abort (V : Type) (cx : context)
    (h : ten_env_t) (level : TEN_LOG_LEVEL) (func_name file_name : cptr)
    (func_name_len file_name_len line_no : nat) (msg category : cptr)
    (category_len : nat) (fields : option V) (fmt : cptr)
    (ap : list fmt_arg) (body f expansion : string) :
  closed h = false ->
  c_str msg = Some body ->
  c_str fmt = Some f ->
  vformat f ap = Some expansion ->
  (let r := ten_env_log_without_check_thread cx (Some h) level func_name
              file_name line_no msg category fields in
   result r = Returned tt /\
   hd_error (trace r) = Some (EvCheckIntegrity false) /\
   existsb reads_thread_descriptor (trace r) = false) /\
  (let r := ten_env_log_with_size_formatted_without_check_thread cx (Some h)
              level func_name func_name_len file_name file_name_len line_no
              category category_len fields fmt ap in
   result r = Returned tt /\
   hd_error (trace r) = Some (EvCheckIntegrity false) /\
   existsb reads_thread_descriptor (trace r) = false) /\
  (forall msg' : cptr,
     result (ten_env_log_without_check_thread cx (Some h) level func_name
               file_name line_no msg' category fields) <> Aborted) /\
  (forall (fmt' : cptr) (ap' : list fmt_arg),
     result (ten_env_log_with_size_formatted_without_check_thread cx
               (Some h) level func_name func_name_len file_name
               file_name_len line_no category category_len fields fmt' ap')
     <> Aborted).
Proof.
  intros _ Hmsg Hfmt Hexp.
  unfold ten_env_log_without_check_thread,
    ten_env_log_with_size_formatted_without_check_thread.
  repeat apply conj.
  - rewrite ten_env_log_internal_run, gate_open_unenforced, Hmsg.
    reflexivity.
  - rewrite ten_env_log_internal_run, gate_open_unenforced, Hmsg.
    reflexivity.
  - rewrite ten_env_log_internal_run, gate_open_unenforced, Hmsg.
    reflexivity.
  - rewrite ten_env_log_with_size_formatted_internal_run,
      gate_open_unenforced, Hfmt. simpl option_map. rewrite Hexp.
    reflexivity.
  - rewrite ten_env_log_with_size_formatted_internal_run,
      gate_open_unenforced, Hfmt. simpl option_map. rewrite Hexp.
    reflexivity.
  - rewrite ten_env_log_with_size_formatted_internal_run,
      gate_open_unenforced, Hfmt. simpl option_map. rewrite Hexp.
    reflexivity.
  - intros msg'.
    rewrite ten_env_log_internal_run, gate_open_unenforced.
    destruct (c_str msg'); discriminate.
  - intros fmt' ap'.
    rewrite ten_env_log_with_size_formatted_internal_run,
      gate_open_unenforced.
    destruct (c_str fmt') as [f'|]; simpl; [|discriminate].
    destruct (vformat f' ap'); discriminate.
Qed.

Lemma unchecked_entry_points_never_abort_witness :
  closed (sample_env false) = false /\
  c_str (literal "hello") = Some "hello" /\
  c_str (literal "%d items") = Some "%d items" /\
  vformat "%d items" [ArgInt 5] = Some "5 items" /\
  result (ten_env_log_without_check_thread other_posix
            (Some (sample_env false)) info fn file 7 (literal "hello") cat
            (@None unit)) = Returned tt.
Proof.
  repeat (split; [reflexivity|]).
  apply (unchecked_entry_points_never_abort unit other_posix
           (sample_env false) info fn file 8 5 7 (literal "hello") cat 3
           None (literal "%d items") [ArgInt 5] "hello" "%d items"
           "5 items" eq_refl eq_refl eq_refl eq_refl).
Defined.

(* ===================================================================== *)
(** ** What reaches the sink *)
(* ===================================================================== *)

(** Whatever the inputs, a call of either internal function submits at
    most one record, and that record carries the metadata as given. *)
Lemma ten_env_log_internal_forwards (V : Type) cx self level func_name
    file_name line_no msg category (fields : option V) check_thread :
  Forall (fun c => forwards category None fields c /\
                   sink_func_name c = func_name /\
                   sink_file_name c = file_name /\
                   length_qualified c = false)
    (sink_calls (trace (ten_env_log_internal cx self level func_name
                          file_name line_no msg category fields
                          check_thread))).
Proof.
  destruct self as [h|]; [|constructor].
  rewrite ten_env_log_internal_run.
  destruct (gate_open cx h check_thread); [|constructor].
  destruct (c_str msg); [|constructor].
  repeat constructor.
Qed.

Lemma ten_env_log_with_size_formatted_internal_forwards (V : Type) cx self
    level func_name func_name_len file_name file_name_len line_no
    check_thread category category_len (fields : option V) fmt ap :
  Forall (fun c => forwards category (Some category_len) fields c /\
                   sink_func_name c = func_name /\
                   sink_file_name c = file_name /\
                   length_qualified c = true /\
                   sink_msg_len c = Some (String.length (sink_msg c)))
    (sink_calls (trace (ten_env_log_with_size_formatted_internal cx self
                          level func_name func_name_len file_name
                          file_name_len line_no check_thread category
                          category_len fields fmt ap))).
Proof.
  destruct self as [h|]; [|constructor].
  rewrite ten_env_log_with_size_formatted_internal_run.
  destruct (gate_open cx h check_thread); [|constructor].
  destruct (c_str fmt) as [f|]; simpl option_map; [|constructor].
  destruct (vformat f ap); [|constructor].
  repeat constructor.
Qed.

Lemma ten_env_log_sink_calls (V : Type) cx self level func_name file_name
    line_no msg category (fields : option V) :
  sink_calls (trace (ten_env_log cx self level func_name file_name line_no
                       msg category fields))
  = match self with
    | Some h =>
        if closed h then []
        else sink_calls (trace (ten_env_log_internal cx self level func_name
                                  file_name line_no msg category fields
                                  true))
    | None => []
    end.
Proof.
  destruct self as [h|]; [|reflexivity].
  rewrite ten_env_log_run.
  destruct (closed h).
  - destruct (OS_WINDOWS cx); [reflexivity|].
    destruct (c_str msg); reflexivity.
  - destruct (ten_env_log_internal _ _ _ _ _ _ _ _ _ _) as [o t].
    reflexivity.
Qed.

Lemma ten_env_log_formatted_sink_calls (V : Type) cx self level func_name
    file_name line_no category category_len (fields : option V) fmt ap :
  sink_calls (trace (ten_env_log_formatted cx self level func_name
                       file_name line_no category category_len fields fmt
                       ap))
  = match strlen func_name, strlen file_name with
    | Some n1, Some n2 =>
        sink_calls (trace (ten_env_log_with_size_formatted_internal cx self
                             level func_name n1 file_name n2 line_no true
                             category category_len fields fmt ap))
    | _, _ => []
    end.
Proof.
  rewrite ten_env_log_formatted_run.
  destruct (strlen func_name); [|reflexivity].
  destruct (strlen file_name); reflexivity.
Qed.

(** C7: every record that an entry point submits carries the category
    pointer, the category length (in the form that has one) and the
    fields value exactly as the caller passed them. *)
Theorem category_and_fields_forwarded_unchanged (V : Type) (cx : context)
    (self : option ten_env_t) (level : TEN_LOG_LEVEL)
    (func_name file_name : cptr) (func_name_len file_name_len line_no : nat)
    (msg category : cptr) (category_len : nat) (fields : option V)
    (fmt : cptr) (ap : list fmt_arg) :
  Forall (forwards category None fields)
    (sink_calls (trace (ten_env_log cx self level func_name file_name
                          line_no msg category fields))) /\
  Forall (forwards category None fields)
    (sink_calls (trace (ten_env_log_without_check_thread cx self level
                          func_name file_name line_no msg category
                          fields))) /\
  Forall (forwards category (Some category_len) fields)
    (sink_calls (trace (ten_env_log_formatted cx self level func_name
                          file_name line_no category category_len fields
                          fmt ap))) /\
  Forall (forwards category (Some category_len) fields)
    (sink_calls (trace (ten_env_log_with_size_formatted cx self level
                          func_name func_name_len file_name file_name_len
                          line_no category category_len fields fmt ap))) /\
  Forall (forwards category (Some category_len) fields)
    (sink_calls (trace (ten_env_log_with_size_formatted_without_check_thread
                          cx self level func_name func_name_len file_name
                          file_name_len line_no category category_len
                          fields fmt ap))).
Proof.
  repeat apply conj.
  - rewrite ten_env_log_sink_calls.
    destruct self as [h|]; [|constructor].
    destruct (closed h); [constructor|].
    eapply Forall_impl; [|apply ten_env_log_internal_forwards].
    intros c Hc. apply Hc.
  - unfold ten_env_log_without_check_thread.
    eapply Forall_impl; [|apply ten_env_log_internal_forwards].
    intros c Hc. apply Hc.
  - rewrite ten_env_log_formatted_sink_calls.
    destruct (strlen func_name); [|constructor].
    destruct (strlen file_name); [|constructor].
    eapply Forall_impl;
      [|apply ten_env_log_with_size_formatted_internal_forwards].
    intros c Hc. apply Hc.
  - unfold ten_env_log_with_size_formatted.
    eapply Forall_impl;
      [|apply ten_env_log_with_size_formatted_internal_forwards].
    intros c Hc. apply Hc.
  - unfold ten_env_log_with_size_formatted_without_check_thread.
    eapply Forall_impl;
      [|apply ten_env_log_with_size_formatted_internal_forwards].
    intros c Hc. apply Hc.
Qed.

(** C8, as stated, fails: ten_env_log composes its message in a
    ten_string_t buffer, yet hands it to the plain form of the sink. *)
Lemma direct_message_uses_plain_form :
  map length_qualified
    (sink_calls (trace (ten_env_log owner_posix (Some (sample_env false))
                          info fn file 7 (literal "hello") cat
                          (@None unit)))) = [false].
Proof. reflexivity. Qed.

(** C8, amended: the three formatted entry points dispatch through the
    length-qualified form of the sink, passing the composed buffer with
    its length; the two direct-message entry points, which also compose
    in a growable buffer, dispatch through the plain NUL-terminated
    form. *)
Theorem sink_form_by_entry_point (V : Type) (cx : context)
    (self : option ten_env_t) (level : TEN_LOG_LEVEL)
    (func_name file_name : cptr) (func_name_len file_name_len line_no : nat)
    (msg category : cptr) (category_len : nat) (fields : option V)
    (fmt : cptr) (ap : list fmt_arg) :
  Forall (fun c => length_qualified c = true /\
                   sink_msg_len c = Some (String.length (sink_msg c)))
    (sink_calls (trace (ten_env_log_formatted cx self level func_name
                          file_name line_no category category_len fields
                          fmt ap))) /\
  Forall (fun c => length_qualified c = true /\
                   sink_msg_len c = Some (String.length (sink_msg c)))
    (sink_calls (trace (ten_env_log_with_size_formatted cx self level
                          func_name func_name_len file_name file_name_len
                          line_no category category_len fields fmt ap))) /\
  Forall (fun c => length_qualified c = true /\
                   sink_msg_len c = Some (String.length (sink_msg c)))
    (sink_calls (trace (ten_env_log_with_size_formatted_without_check_thread
                          cx self level func_name func_name_len file_name
                          file_name_len line_no category category_len
                          fields fmt ap))) /\
  Forall (fun c => length_qualified c = false)
    (sink_calls (trace (ten_env_log cx self level func_name file_name
                          line_no msg category fields))) /\
  Forall (fun c => length_qualified c = false)
    (sink_calls (trace (ten_env_log_without_check_thread cx self level
                          func_name file_name line_no msg category
                          fields))).
Proof.
  repeat apply conj.
  - rewrite ten_env_log_formatted_sink_calls.
    destruct (strlen func_name); [|constructor].
    destruct (strlen file_name); [|constructor].
    eapply Forall_impl;
      [|apply ten_env_log_with_size_formatted_internal_forwards].
    intros c Hc. split; apply Hc.
  - unfold ten_env_log_with_size_formatted.
    eapply Forall_impl;
      [|apply ten_env_log_with_size_formatted_internal_forwards].
    intros c Hc. split; apply Hc.
  - unfold ten_env_log_with_size_formatted_without_check_thread.
    eapply Forall_impl;
      [|apply ten_env_log_with_size_formatted_internal_forwards].
    intros c Hc. split; apply Hc.
  - rewrite ten_env_log_sink_calls.
    destruct self as [h|]; [|constructor].
    destruct (closed h); [constructor|].
    eapply Forall_impl; [|apply ten_env_log_internal_forwards].
    intros c Hc. apply Hc.
  - unfold ten_env_log_without_check_thread.
    eapply Forall_impl; [|apply ten_env_log_internal_forwards].
    intros c Hc. apply Hc.
Qed.

(** A record with a category and a fields value, as the sink receives it
    from the checked formatted entry point. *)
Example ten_env_log_formatted_forwards_sample :
  sink_calls
    (trace (ten_env_log_formatted owner_posix (Some (sample_env false)) info
              fn file 7 cat 3 (Some 42%Z) (literal "%s=%d")
              [ArgStr "rtt"; ArgInt 17]))
  = [LogLogWithSize info fn 8 file 5 7 "[ext] rtt=17" 12 cat 3 (Some 42%Z)].
Proof. reflexivity. Qed.

(* ===================================================================== *)
(** ** Formatted bodies *)
(* ===================================================================== *)

(** A %s directive yields its argument whole, whatever its length. *)
Lemma vformat_string_whole (s : string) : vformat "%s" [ArgStr s] = Some s.
Proof. cbv -[append]. cbn. now rewrite append_empty_r. Qed.

(** A four-kilobyte body arrives whole behind the prefix. *)
Example four_kilobyte_body_intact :
  map sink_msg
    (sink_calls
       (trace (ten_env_log_with_size_formatted owner_posix
                 (Some (sample_env false)) info fn 8 file 5 7 cat 3
                 (@None unit) (literal "%s") [ArgStr (filler 4096 "x")])))
  = ["[ext] " ++ filler 4096 "x"].
Proof. vm_compute. reflexivity. Qed.

(** Ordinary text in front of a format is copied whole, whatever its
    length. *)
Lemma vformat_literal_prefix (text f : string) (ap : list fmt_arg) :
  percent_free text = true ->
  vformat (text ++ f) ap = option_map (append text) (vformat f ap).
Proof.
  unfold vformat. induction text as [|c text IH]; intros Hfree.
  - simpl. destruct (vformat_in InText f ap); reflexivity.
  - simpl in Hfree. apply andb_true_iff in Hfree as [Hc Htext].
    apply negb_true_iff in Hc.
    cbn [append vformat_in step]. rewrite Hc, (IH Htext).
    destruct (vformat_in InText f ap); reflexivity.
Qed.

(** The expansion on flags, widths, precisions and length modifiers, and
    on calls that C leaves undefined. *)
Example vformat_samples :
  vformat "%u|%05d|%+.3d|% d|%#o|%#x|%-6X|%5.2s|%-3c|%%|%lu|%hhd|%*d|%.*s"
    [ArgInt 5; ArgInt 42; ArgInt 7; ArgInt 7; ArgInt 8; ArgInt 255;
     ArgInt 255; ArgStr "abc"; ArgChar "A"; ArgInt 18446744073709551615;
     ArgInt 200; ArgInt 4; ArgInt (-1); ArgInt 2; ArgStr "xyz"]
  = Some "5|00042|+007| 7|010|0xff|FF    |   ab|A  |%|18446744073709551615|-56|  -1|xy" /\
  vformat "%.2f s" [ArgOpaque (fun _ => "0.25")] = Some "0.25 s" /\
  vformat "%d" [] = None /\
  vformat "%d" [ArgStr "x"] = None /\
  vformat "%y" [] = None /\
  vformat "%5" [ArgInt 1] = None.
Proof. repeat split. Qed.

(** Formats with an unsigned conversion, with a flag and a field width,
    and with a length modifier, through the checked formatted entry
    point. *)
Example ten_env_log_formatted_conversion_samples :
  map sink_msg
    (sink_calls
       (trace (ten_env_log_formatted owner_posix (Some (sample_env false))
                 info fn file 7 cat 3 (@None unit) (literal "%u items")
                 [ArgInt 5]))) = ["[ext] 5 items"] /\
  map sink_msg
    (sink_calls
       (trace (ten_env_log_formatted owner_posix (Some (sample_env false))
                 info fn file 7 cat 3 (@None unit) (literal "id %05d")
                 [ArgInt 42]))) = ["[ext] id 00042"] /\
  map sink_msg
    (sink_calls
       (trace (ten_env_log_formatted owner_posix (Some (sample_env false))
                 info fn file 7 cat 3 (@None unit)
                 (literal "%zu bytes, %#x, %-4s|%+.2d")
                 [ArgInt 4096; ArgInt 255; ArgStr "ab"; ArgInt 7])))
  = ["[ext] 4096 bytes, 0xff, ab  |+07"].
Proof. repeat split. Qed.

(** C9: on an open handle and from a permitted thread (the owning thread
    for the checked entry points, any thread for the unchecked one), the
    message of the one record submitted by a formatted entry point is the
    prefix followed by the whole expansion of the format, and the length
    handed to the sink is that of prefix and expansion together: nothing
    is cut off, whatever the length of the expansion. The format
    "%d items" with the argument 5 expands to "5 items", a %s argument of
    any length is expanded whole, and so is ordinary text of any length
    in front of a format. *)
Theorem formatted_body_is_whole_expansion (V : Type) (cx : context)
    (h : ten_env_t) (level : TEN_LOG_LEVEL) (func_name file_name : cptr)
    (func_name_len file_name_len line_no : nat) (category : cptr)
    (category_len : nat) (fields : option V) (fmt : cptr)
    (ap : list fmt_arg) (f expansion : string) (n1 n2 : nat) :
  closed h = false ->
  c_str fmt = Some f ->
  vformat f ap = Some expansion ->
  strlen func_name = Some n1 ->
  strlen file_name = Some n2 ->
  let final_msg := "[" ++ attached_instance_name h ++ "] " ++ expansion in
  let final_len :=
    3 + String.length (attached_instance_name h) + String.length expansion in
  (calling_thread cx = owner_thread h ->
   let t := trace (ten_env_log_formatted cx (Some h) level func_name
                     file_name line_no category category_len fields fmt
                     ap) in
   map sink_msg (sink_calls t) = [final_msg] /\
   map sink_msg_len (sink_calls t) = [Some final_len]) /\
  (calling_thread cx = owner_thread h ->
   let t := trace (ten_env_log_with_size_formatted cx (Some h) level
                     func_name func_name_len file_name file_name_len
                     line_no category category_len fields fmt ap) in
   map sink_msg (sink_calls t) = [final_msg] /\
   map sink_msg_len (sink_calls t) = [Some final_len]) /\
  (let t := trace (ten_env_log_with_size_formatted_without_check_thread cx
                     (Some h) level func_name func_name_len file_name
                     file_name_len line_no category category_len fields
                     fmt ap) in
   map sink_msg (sink_calls t) = [final_msg] /\
   map sink_msg_len (sink_calls t) = [Some final_len]) /\
  vformat "%d items" [ArgInt 5] = Some "5 items" /\
  (forall s : string, vformat "%s" [ArgStr s] = Some s) /\
  (forall text : string,
     percent_free text = true ->
     vformat (text ++ f) ap = Some (text ++ expansion)).
Proof.
  intros _ Hfmt Hexp H1 H2 final_msg final_len.
  assert (Hlen : String.length final_msg = final_len).
  { unfold final_msg, final_len. rewrite !length_append. simpl. lia. }
  split; [|split; [|split; [|split; [|split]]]].
  - intros Hthread. apply gate_open_enforced in Hthread.
    rewrite ten_env_log_formatted_run, H1, H2,
      ten_env_log_with_size_formatted_internal_run, Hthread, Hfmt.
    simpl option_map. rewrite Hexp. cbn -[append String.length].
    fold final_msg. rewrite Hlen. split; reflexivity.
  - intros Hthread. apply gate_open_enforced in Hthread.
    unfold ten_env_log_with_size_formatted.
    rewrite ten_env_log_with_size_formatted_internal_run, Hthread, Hfmt.
    simpl option_map. rewrite Hexp. cbn -[append String.length].
    fold final_msg. rewrite Hlen. split; reflexivity.
  - unfold ten_env_log_with_size_formatted_without_check_thread.
    rewrite ten_env_log_with_size_formatted_internal_run,
      gate_open_unenforced, Hfmt.
    simpl option_map. rewrite Hexp. cbn -[append String.length].
    fold final_msg. rewrite Hlen. split; reflexivity.
  - reflexivity.
  - apply vformat_string_whole.
  - intros text Hfree.
    rewrite (vformat_literal_prefix text f ap Hfree), Hexp. reflexivity.
Qed.

Lemma formatted_body_is_whole_expansion_witness :
  closed (sample_env false) = false /\
  c_str (literal "%d items") = Some "%d items" /\
  vformat "%d items" [ArgInt 5] = Some "5 items" /\
  strlen fn = Some 8 /\
  strlen file = Some 5 /\
  calling_thread owner_posix = owner_thread (sample_env false) /\
  map sink_msg
    (sink_calls
       (trace (ten_env_log_formatted owner_posix (Some (sample_env false))
                 info fn file 7 cat 3 (@None unit) (literal "%d items")
                 [ArgInt 5]))) = ["[ext] 5 items"] /\
  map sink_msg_len
    (sink_calls
       (trace (ten_env_log_formatted owner_posix (Some (sample_env false))
                 info fn file 7 cat 3 (@None unit) (literal "%d items")
                 [ArgInt 5]))) = [Some 13].
Proof.
  repeat (split; [reflexivity|]).
  apply (proj1 (formatted_body_is_whole_expansion unit owner_posix
                  (sample_env false) info fn file 8 5 7 cat 3 None
                  (literal "%d items") [ArgInt 5] "%d items" "5 items" 8 5
                  eq_refl eq_refl eq_refl eq_refl eq_refl) eq_refl).
Defined.

(* ===================================================================== *)
(** ** The strlen precondition of ten_env_log_formatted *)
(* ===================================================================== *)

(** C10: ten_env_log_formatted applies strlen to func_name and file_name
    before anything else: when either is null or unterminated the call is
    undefined and has had no effect, whatever the handle (null, closed,
    or owned by another thread). ten_env_log_with_size_formatted does not
    scan them: with the same pointers its outcome is that of a call with
    any other pointers, and the records it submits carry them as
    given. *)
Theorem ten_env_log_formatted_requires_c_strings (V : Type) (cx : context)
    (self : option ten_env_t) (level : TEN_LOG_LEVEL)
    (func_name file_name : cptr) (line_no : nat) (category : cptr)
    (category_len : nat) (fields : option V) (fmt : cptr)
    (ap : list fmt_arg) :
  strlen func_name = None \/ strlen file_name = None ->
  ten_env_log_formatted cx self level func_name file_name line_no category
    category_len fields fmt ap = (Undefined, []) /\
  (forall (n1 n2 : nat) (func_name' file_name' : cptr),
     result (ten_env_log_with_size_formatted cx self level func_name n1
               file_name n2 line_no category category_len fields fmt ap)
     = result (ten_env_log_with_size_formatted cx self level func_name' n1
                 file_name' n2 line_no category category_len fields fmt
                 ap)) /\
  (forall n1 n2 : nat,
     Forall (fun c => sink_func_name c = func_name /\
                      sink_file_name c = file_name)
       (sink_calls (trace (ten_env_log_with_size_formatted cx self level
                             func_name n1 file_name n2 line_no category
                             category_len fields fmt ap)))).
Proof.
  intros Hbad. repeat apply conj.
  - rewrite ten_env_log_formatted_run.
    destruct Hbad as [H|H]; rewrite H; [reflexivity|].
    destruct (strlen func_name); reflexivity.
  - intros n1 n2 func_name' file_name'.
    unfold ten_env_log_with_size_formatted.
    destruct self as [h|]; [|reflexivity].
    rewrite !ten_env_log_with_size_formatted_internal_run.
    destruct (gate_open cx h true); [|reflexivity].
    destruct (c_str fmt) as [f|]; simpl option_map; [|reflexivity].
    destruct (vformat f ap); reflexivity.
  - intros n1 n2. unfold ten_env_log_with_size_formatted.
    eapply Forall_impl;
      [|apply ten_env_log_with_size_formatted_internal_forwards].
    intros c Hc. split; apply Hc.
Qed.

Lemma ten_env_log_formatted_requires_c_strings_witness :
  (strlen NULL = None \/ strlen file = None) /\
  ten_env_log_formatted owner_posix (Some (sample_env false)) info NULL file
    7 cat 3 (@None unit) (literal "%d items") [ArgInt 5] = (Undefined, []).
Proof.
  split; [left; reflexivity|].
  apply (ten_env_log_formatted_requires_c_strings unit owner_posix
           (Some (sample_env false)) info NULL file 7 cat 3 None
           (literal "%d items") [ArgInt 5] (or_introl eq_refl)).
Defined.

(** With a null function name and an unterminated file name the
    explicit-length variant still returns normally and submits the
    record. *)
Example ten_env_log_with_size_formatted_unscanned_names :
  ten_env_log_with_size_formatted owner_posix (Some (sample_env false)) info
    NULL 0 (Ptr "ext.c") 5 7 cat 3 (@None unit) (literal "%d items")
    [ArgInt 5]
  = (Returned tt,
     [EvCheckIntegrity true; EvGetName true;
      EvSubmit (LogLogWithSize info NULL 0 (Ptr "ext.c") 5 7
                  "[ext] 5 items" 13 cat 3 None)]).
Proof. reflexivity. Qed.

(* ===================================================================== *)
(** ** Further properties of the entry points *)
(* ===================================================================== *)

Lemma ten_env_log_null (V : Type) cx level func_name file_name line_no msg
    category (fields : option V) :
  ten_env_log cx None level func_name file_name line_no msg category fields
  = (Aborted, []).
Proof. reflexivity. Qed.

Lemma nul_free_append (s t : string) :
  nul_free (s ++ t) = nul_free s && nul_free t.
Proof.
  induction s as [|c s IH]; simpl; [reflexivity|].
  now rewrite IH, andb_assoc.
Qed.

Lemma c_str_nul_free (p : cptr) (s : string) :
  c_str p = Some s -> nul_free s = true.
Proof.
  destruct p as [|mem]; simpl; [discriminate | apply scan_nul_free].
Qed.

(** Bring the runs in the goal to the form of their run equations, then
    split on every test the code makes. *)
Ltac expose_runs :=
  unfold ten_env_log_without_check_thread, ten_env_log_with_size_formatted,
    ten_env_log_with_size_formatted_without_check_thread;
  rewrite ?ten_env_log_formatted_run;
  repeat match goal with
         | |- context [match strlen ?p with Some _ => _ | None => _ end] =>
             destruct (strlen p) eqn:?
         end;
  rewrite ?ten_env_log_null, ?ten_env_log_run, ?ten_env_log_internal_run,
    ?ten_env_log_with_size_formatted_internal_run.

Ltac split_tests :=
  repeat match goal with
         | |- context [if ?b then _ else _] => destruct b eqn:?
         | |- context [match ?o with Some _ => _ | None => _ end] =>
             destruct o eqn:?
         end.

(** With a null handle the assertion of either internal function fails on
    its first conjunct: the integrity check is not called, the message or
    format is not read, nothing is written or submitted. This holds for
    the four entry points that go straight to an internal function (for
    ten_env_log_formatted, once its two strlen calls are defined). *)
Theorem null_handle_aborts_before_any_effect (V : Type) (cx : context)
    (level : TEN_LOG_LEVEL) (func_name file_name : cptr)
    (func_name_len file_name_len line_no : nat) (msg category : cptr)
    (category_len : nat) (fields : option V) (fmt : cptr)
    (ap : list fmt_arg) (n1 n2 : nat) :
  strlen func_name = Some n1 ->
  strlen file_name = Some n2 ->
  ten_env_log_without_check_thread cx None level func_name file_name
    line_no msg category fields = (Aborted, []) /\
  ten_env_log_with_size_formatted cx None level func_name func_name_len
    file_name file_name_len line_no category category_len fields fmt ap
  = (Aborted, []) /\
  ten_env_log_with_size_formatted_without_check_thread cx None level
    func_name func_name_len file_name file_name_len line_no category
    category_len fields fmt ap = (Aborted, []) /\
  ten_env_log_formatted cx None level func_name file_name line_no category
    category_len fields fmt ap = (Aborted, []).
Proof.
  intros H1 H2. repeat split.
  rewrite ten_env_log_formatted_run, H1, H2. reflexivity.
Qed.

Lemma null_handle_aborts_before_any_effect_witness :
  strlen fn = Some 8 /\
  strlen file = Some 5 /\
  ten_env_log_formatted owner_posix None info fn file 7 cat 3 (@None unit)
    NULL [] = (Aborted, []).
Proof.
  split; [reflexivity|]. split; [reflexivity|].
  apply (null_handle_aborts_before_any_effect unit owner_posix info fn file
           8 5 7 NULL cat 3 None NULL [] 8 5 eq_refl eq_refl).
Defined.

(** Whatever the inputs, a call of any entry point submits nothing, or
    returns normally after submitting exactly one record as its last
    effect: a call that aborts or is undefined has submitted no record,
    and nothing is done after a record is submitted. *)
Theorem one_record_at_the_end_or_none (V : Type) (cx : context)
    (self : option ten_env_t) (level : TEN_LOG_LEVEL)
    (func_name file_name : cptr) (func_name_len file_name_len line_no : nat)
    (msg category : cptr) (category_len : nat) (fields : option V)
    (fmt : cptr) (ap : list fmt_arg) :
  submits_once_at_end
    (ten_env_log cx self level func_name file_name line_no msg category
       fields) /\
  submits_once_at_end
    (ten_env_log_without_check_thread cx self level func_name file_name
       line_no msg category fields) /\
  submits_once_at_end
    (ten_env_log_formatted cx self level func_name file_name line_no
       category category_len fields fmt ap) /\
  submits_once_at_end
    (ten_env_log_with_size_formatted cx self level func_name func_name_len
       file_name file_name_len line_no category category_len fields fmt
       ap) /\
  submits_once_at_end
    (ten_env_log_with_size_formatted_without_check_thread cx self level
       func_name func_name_len file_name file_name_len line_no category
       category_len fields fmt ap).
Proof.
  repeat apply conj; destruct self as [h|];
    expose_runs; split_tests;
    first [ left; reflexivity
          | right; exists tt; eexists; eexists [_; _];
            solve [repeat split]
          | right; exists tt; eexists; eexists [_; _; _];
            solve [repeat split] ].
Qed.

(** The check_thread flag is the same at every read of the handle within
    one call: the checked entry points check integrity and resolve the
    instance name with the flag on, the unchecked ones with the flag off,
    whatever the inputs. *)
Theorem enforce_flag_is_uniform_within_a_call (V : Type) (cx : context)
    (self : option ten_env_t) (level : TEN_LOG_LEVEL)
    (func_name file_name : cptr) (func_name_len file_name_len line_no : nat)
    (msg category : cptr) (category_len : nat) (fields : option V)
    (fmt : cptr) (ap : list fmt_arg) :
  flags_all true
    (trace (ten_env_log cx self level func_name file_name line_no msg
              category fields)) = true /\
  flags_all true
    (trace (ten_env_log_formatted cx self level func_name file_name line_no
              category category_len fields fmt ap)) = true /\
  flags_all true
    (trace (ten_env_log_with_size_formatted cx self level func_name
              func_name_len file_name file_name_len line_no category
              category_len fields fmt ap)) = true /\
  flags_all false
    (trace (ten_env_log_without_check_thread cx self level func_name
              file_name line_no msg category fields)) = true /\
  flags_all false
    (trace (ten_env_log_with_size_formatted_without_check_thread cx self
              level func_name func_name_len file_name file_name_len line_no
              category category_len fields fmt ap)) = true.
Proof.
  repeat apply conj; destruct self as [h|];
    expose_runs; split_tests; reflexivity.
Qed.

(** Only ten_env_log looks at the closed flag. The four other entry
    points never read it, and behave on a handle exactly as on the same
    handle with the flag set either way. *)
Theorem closed_flag_ignored_outside_ten_env_log (V : Type) (cx : context)
    (h : ten_env_t) (b : bool) (level : TEN_LOG_LEVEL)
    (func_name file_name : cptr) (func_name_len file_name_len line_no : nat)
    (msg category : cptr) (category_len : nat) (fields : option V)
    (fmt : cptr) (ap : list fmt_arg) :
  (let r := ten_env_log_without_check_thread cx (Some h) level func_name
              file_name line_no msg category fields in
   existsb reads_closed_flag (trace r) = false /\
   r = ten_env_log_without_check_thread cx (Some (set_closed b h)) level
         func_name file_name line_no msg category fields) /\
  (let r := ten_env_log_formatted cx (Some h) level func_name file_name
              line_no category category_len fields fmt ap in
   existsb reads_closed_flag (trace r) = false /\
   r = ten_env_log_formatted cx (Some (set_closed b h)) level func_name
         file_name line_no category category_len fields fmt ap) /\
  (let r := ten_env_log_with_size_formatted cx (Some h) level func_name
              func_name_len file_name file_name_len line_no category
              category_len fields fmt ap in
   existsb reads_closed_flag (trace r) = false /\
   r = ten_env_log_with_size_formatted cx (Some (set_closed b h)) level
         func_name func_name_len file_name file_name_len line_no category
         category_len fields fmt ap) /\
  (let r := ten_env_log_with_size_formatted_without_check_thread cx
              (Some h) level func_name func_name_len file_name
              file_name_len line_no category category_len fields fmt ap in
   existsb reads_closed_flag (trace r) = false /\
   r = ten_env_log_with_size_formatted_without_check_thread cx
         (Some (set_closed b h)) level func_name func_name_len file_name
         file_name_len line_no category category_len fields fmt ap).
Proof.
  assert (Hgate : forall ct, gate_open cx (set_closed b h) ct
                             = gate_open cx h ct) by reflexivity.
  repeat apply conj; expose_runs; rewrite ?Hgate;
    cbn [set_closed attached_instance_name];
    try reflexivity; split_tests; reflexivity.
Qed.

(** The unchecked entry points do not depend on the calling thread or on
    the platform: two calls with the same arguments made in any two
    contexts have the same outcome and the same effects. *)
Theorem unchecked_entry_points_ignore_the_context (V : Type)
    (cx cx' : context) (self : option ten_env_t) (level : TEN_LOG_LEVEL)
    (func_name file_name : cptr) (func_name_len file_name_len line_no : nat)
    (msg category : cptr) (category_len : nat) (fields : option V)
    (fmt : cptr) (ap : list fmt_arg) :
  ten_env_log_without_check_thread cx self level func_name file_name
    line_no msg category fields
  = ten_env_log_without_check_thread cx' self level func_name file_name
      line_no msg category fields /\
  ten_env_log_with_size_formatted_without_check_thread cx self level
    func_name func_name_len file_name file_name_len line_no category
    category_len fields fmt ap
  = ten_env_log_with_size_formatted_without_check_thread cx' self level
      func_name func_name_len file_name file_name_len line_no category
      category_len fields fmt ap.
Proof.
  split; (destruct self as [h|]; [|reflexivity]); expose_runs;
    rewrite !gate_open_unenforced; reflexivity.
Qed.

(** Called from the owning thread, a checked entry point has the outcome
    of its unchecked counterpart and submits the same records: on an open
    handle for ten_env_log, on every handle for
    ten_env_log_with_size_formatted. The guards are all that tells the
    two families apart. *)
Theorem checked_agrees_with_unchecked_on_owning_thread (V : Type)
    (cx : context) (h : ten_env_t) (level : TEN_LOG_LEVEL)
    (func_name file_name : cptr) (func_name_len file_name_len line_no : nat)
    (msg category : cptr) (category_len : nat) (fields : option V)
    (fmt : cptr) (ap : list fmt_arg) :
  calling_thread cx = owner_thread h ->
  (closed h = false ->
   let r := ten_env_log cx (Some h) level func_name file_name line_no msg
              category fields in
   let u := ten_env_log_without_check_thread cx (Some h) level func_name
              file_name line_no msg category fields in
   result r = result u /\ sink_calls (trace r) = sink_calls (trace u)) /\
  (let r := ten_env_log_with_size_formatted cx (Some h) level func_name
              func_name_len file_name file_name_len line_no category
              category_len fields fmt ap in
   let u := ten_env_log_with_size_formatted_without_check_thread cx
              (Some h) level func_name func_name_len file_name
              file_name_len line_no category category_len fields fmt ap in
   result r = result u /\ sink_calls (trace r) = sink_calls (trace u)).
Proof.
  intros Hthread. apply gate_open_enforced in Hthread. split.
  - intros Hopen. expose_runs.
    rewrite Hopen, Hthread, gate_open_unenforced.
    destruct (c_str msg); split; reflexivity.
  - expose_runs. rewrite Hthread, gate_open_unenforced.
    destruct (c_str fmt) as [f|]; simpl option_map;
      [destruct (vformat f ap)|]; split; reflexivity.
Qed.

Lemma checked_agrees_with_unchecked_on_owning_thread_witness :
  calling_thread owner_posix = owner_thread (sample_env false) /\
  closed (sample_env false) = false /\
  sink_calls
    (trace (ten_env_log owner_posix (Some (sample_env false)) info fn file 7
              (literal "hello") cat (@None unit)))
  = sink_calls
      (trace (ten_env_log_without_check_thread owner_posix
                (Some (sample_env false)) info fn file 7 (literal "hello")
                cat (@None unit))).
Proof.
  split; [reflexivity|]. split; [reflexivity|].
  apply (proj1 (checked_agrees_with_unchecked_on_owning_thread unit
                  owner_posix (sample_env false) info fn file 8 5 7
                  (literal "hello") cat 3 None (literal "%d items")
                  [ArgInt 5] eq_refl) eq_refl).
Defined.


(** Every record an entry point submits carries the level, the function
    and file name pointers and the line number exactly as the caller gave
    them. The length-qualified entry points pass the caller's name lengths
    on as they are, without comparing them with the names;
    ten_env_log_formatted passes the strlen of each name; the direct
    entry points pass no lengths. *)
Theorem locator_and_level_forwarded_unchanged (V : Type) (cx : context)
    (self : option ten_env_t) (level : TEN_LOG_LEVEL)
    (func_name file_name : cptr) (func_name_len file_name_len line_no : nat)
    (msg category : cptr) (category_len : nat) (fields : option V)
    (fmt : cptr) (ap : list fmt_arg) :
  Forall (fun c => located level func_name file_name line_no c /\
                   sink_func_name_len c = None /\
                   sink_file_name_len c = None)
    (sink_calls (trace (ten_env_log cx self level func_name file_name
                          line_no msg category fields))) /\
  Forall (fun c => located level func_name file_name line_no c /\
                   sink_func_name_len c = None /\
                   sink_file_name_len c = None)
    (sink_calls (trace (ten_env_log_without_check_thread cx self level
                          func_name file_name line_no msg category
                          fields))) /\
  Forall (fun c => located level func_name file_name line_no c /\
                   sink_func_name_len c = strlen func_name /\
                   sink_file_name_len c = strlen file_name)
    (sink_calls (trace (ten_env_log_formatted cx self level func_name
                          file_name line_no category category_len fields
                          fmt ap))) /\
  Forall (fun c => located level func_name file_name line_no c /\
                   sink_func_name_len c = Some func_name_len /\
                   sink_file_name_len c = Some file_name_len)
    (sink_calls (trace (ten_env_log_with_size_formatted cx self level
                          func_name func_name_len file_name file_name_len
                          line_no category category_len fields fmt ap))) /\
  Forall (fun c => located level func_name file_name line_no c /\
                   sink_func_name_len c = Some func_name_len /\
                   sink_file_name_len c = Some file_name_len)
    (sink_calls (trace (ten_env_log_with_size_formatted_without_check_thread
                          cx self level func_name func_name_len file_name
                          file_name_len line_no category category_len
                          fields fmt ap))).
Proof.
  repeat apply conj; destruct self as [h|];
    expose_runs; split_tests; repeat constructor.
Qed.

(** The length-qualified entry point does not check the lengths it is
    given: a function name of eight bytes passed with the length 3
    reaches the sink with the length 3. *)
Example ten_env_log_with_size_formatted_keeps_given_lengths :
  strlen fn = Some 8 /\
  map sink_func_name_len
    (sink_calls
       (trace (ten_env_log_with_size_formatted owner_posix
                 (Some (sample_env false)) info fn 3 file 5 7 cat 3
                 (@None unit) (literal "%d items") [ArgInt 5])))
  = [Some 3].
Proof. split; reflexivity. Qed.

(** The message a direct entry point hands to the plain form of the sink
    is as long as the prefix and the caller's message together, and,
    the instance name being free of NUL bytes, so is the message: read
    back as a NUL-terminated string, as the plain form reads it, it is
    the whole composed text. *)
Theorem direct_message_survives_plain_form (V : Type) (cx : context)
    (h : ten_env_t) (level : TEN_LOG_LEVEL) (func_name file_name : cptr)
    (line_no : nat) (msg category : cptr) (fields : option V) :
  nul_free (attached_instance_name h) = true ->
  let whole (c : sink_call V) :=
    option_map (fun n => 3 + String.length (attached_instance_name h) + n)
      (strlen msg) = Some (String.length (sink_msg c)) /\
    c_str (literal (sink_msg c)) = Some (sink_msg c) in
  Forall whole
    (sink_calls (trace (ten_env_log cx (Some h) level func_name file_name
                          line_no msg category fields))) /\
  Forall whole
    (sink_calls (trace (ten_env_log_without_check_thread cx (Some h) level
                          func_name file_name line_no msg category
                          fields))).
Proof.
  intros Hname whole.
  assert (Hwhole : forall body, c_str msg = Some body ->
            whole (LogLog level func_name file_name line_no
                     ("[" ++ attached_instance_name h ++ "] " ++ body)
                     category fields)).
  { intros body Hbody. unfold whole, strlen. rewrite Hbody. split.
    - cbn [option_map sink_msg]. rewrite !length_append. simpl.
      f_equal. lia.
    - apply c_str_literal. cbn [sink_msg].
      rewrite !nul_free_append, Hname, (c_str_nul_free _ _ Hbody).
      reflexivity. }
  split; expose_runs.
  - destruct (closed h).
    + destruct (OS_WINDOWS cx); [constructor|].
      destruct (c_str msg); constructor.
    + destruct (gate_open cx h true); [|constructor].
      destruct (c_str msg) as [body|] eqn:Hbody; [|constructor].
      constructor; [apply Hwhole; reflexivity | constructor].
  - destruct (gate_open cx h false); [|constructor].
    destruct (c_str msg) as [body|] eqn:Hbody; [|constructor].
    constructor; [apply Hwhole; reflexivity | constructor].
Qed.

Lemma direct_message_survives_plain_form_witness :
  nul_free (attached_instance_name (sample_env false)) = true /\
  Forall (fun c =>
            option_map (fun n => 3 + 3 + n) (strlen (literal "hello"))
            = Some (String.length (sink_msg c)) /\
            c_str (literal (sink_msg c)) = Some (sink_msg c))
    (sink_calls (trace (ten_env_log owner_posix (Some (sample_env false))
                          info fn file 7 (literal "hello") cat
                          (@None unit)))).
Proof.
  split; [reflexivity|].
  apply (direct_message_survives_plain_form unit owner_posix
           (sample_env false) info fn file 7 (literal "hello") cat None
           eq_refl).
Defined.


(** The assertion comes before the name is resolved: a call that ends in
    the abort of the assertion has not resolved the instance name,
    whichever entry point it went through and whatever the inputs. *)
Theorem aborted_calls_never_resolve_the_name (V : Type) (cx : context)
    (self : option ten_env_t) (level : TEN_LOG_LEVEL)
    (func_name file_name : cptr) (func_name_len file_name_len line_no : nat)
    (msg category : cptr) (category_len : nat) (fields : option V)
    (fmt : cptr) (ap : list fmt_arg) :
  (let r := ten_env_log cx self level func_name file_name line_no msg
              category fields in
   result r = Aborted -> existsb reads_instance_name (trace r) = false) /\
  (let r := ten_env_log_without_check_thread cx self level func_name
              file_name line_no msg category fields in
   result r = Aborted -> existsb reads_instance_name (trace r) = false) /\
  (let r := ten_env_log_formatted cx self level func_name file_name line_no
              category category_len fields fmt ap in
   result r = Aborted -> existsb reads_instance_name (trace r) = false) /\
  (let r := ten_env_log_with_size_formatted cx self level func_name
              func_name_len file_name file_name_len line_no category
              category_len fields fmt ap in
   result r = Aborted -> existsb reads_instance_name (trace r) = false) /\
  (let r := ten_env_log_with_size_formatted_without_check_thread cx self
              level func_name func_name_len file_name file_name_len line_no
              category category_len fields fmt ap in
   result r = Aborted -> existsb reads_instance_name (trace r) = false).
Proof.
  repeat apply conj; destruct self as [h|];
    expose_runs; split_tests; (reflexivity || discriminate).
Qed.

Lemma aborted_calls_never_resolve_the_name_witness :
  result (ten_env_log other_posix (Some (sample_env false)) info fn file 7
            (literal "hello") cat (@None unit)) = Aborted /\
  existsb reads_instance_name
    (trace (ten_env_log other_posix (Some (sample_env false)) info fn file 7
              (literal "hello") cat (@None unit))) = false.
Proof.
  split; [reflexivity|].
  apply (proj1 (aborted_calls_never_resolve_the_name unit other_posix
                  (Some (sample_env false)) info fn file 8 5 7
                  (literal "hello") cat 3 None (literal "%d items")
                  [ArgInt 5]) eq_refl).
Defined.
